(** * The render graph builder of RenderCore (RenderGraphBuilder.h)

    A shallow embedding of [FRDGBuilder], its passes, its event scopes and
    the declaration calls of the header, followed by the properties the
    specification states about them.

    The header is the only file of the render graph at hand.  The bodies
    that live in RenderGraphBuilder.cpp ([Execute], [DebugPass],
    [WalkGraphDependencies], ...) and the types of RenderGraphResources.h
    are modelled from the specification; each such definition says so. *)

From Stdlib Require Import ZArith Lia.
From stdpp Require Import base option list gmap strings.

(** ** Errors and build configuration *)

(** The error taxonomy of the specification (section 7). *)
Inductive Error :=
  | UseAfterExecute
  | InvalidHandle
  | CapabilityMismatch
  | InvalidComputePass
  | AllocationFailure.

#[global] Instance Error_eq_dec : EqDecision Error.
Proof. solve_decision. Defined.

(** Access modes of a parameter-table entry and the transitions of the
    RHI ([EResourceTransitionAccess], named in the header). *)
Inductive EAccess := AccessRead | AccessWrite | AccessReadWrite.

Inductive EResourceTransitionAccess := EReadable | EWritable | ERWBarrier.

Inductive ECategory := CatTexture | CatBuffer.

#[global] Instance EAccess_eq_dec : EqDecision EAccess.
Proof. solve_decision. Defined.
#[global] Instance EResourceTransitionAccess_eq_dec :
  EqDecision EResourceTransitionAccess.
Proof. solve_decision. Defined.

(** What the header takes from its build and from headers that are not at
    hand: [DO_CHECK] (and with it [RENDER_GRAPH_DEBUGGING]), the switch of
    the immediate debugging mode, the two texture creation flags tested by
    [CreateSRV] and [CreateUAV], the lookup table of the analyzer
    (specification, 4.3). *)
Record RDGConfig := {
  DO_CHECK : bool;
  bImmediateMode : bool;
  TexCreate_ShaderResource : Z;
  TexCreate_UAV : Z;
  TransitionTable :
    option EAccess -> EAccess -> ECategory -> option EResourceTransitionAccess;
}.

(** ** Resources *)

Record FPooledRenderTargetDesc := {
  Extent : Z * Z;
  Format : Z;
  TargetableFlags : Z;
}.

(** Modelled from the spec: [FRDGBufferDesc] (RenderGraphResources.h is not
    at hand).  The specification gives a buffer descriptor an element
    layout; [Usage] is the usage word a capability test would read. *)
Record FRDGBufferDesc := {
  BytesPerElement : Z;
  NumElements : Z;
  Usage : Z;
}.

#[global] Instance FPooledRenderTargetDesc_eq_dec :
  EqDecision FPooledRenderTargetDesc.
Proof. solve_decision. Defined.
#[global] Instance FRDGBufferDesc_eq_dec : EqDecision FRDGBufferDesc.
Proof. solve_decision. Defined.

(** A physical resource: its identity and the descriptor it was built
    from ([IPooledRenderTarget::GetDesc]). *)
Record Pooled (D : Type) := MkPooled { PooledId : nat; PooledDesc : D }.
Arguments MkPooled {D} _ _.
Arguments PooledId {D} _.
Arguments PooledDesc {D} _.

Abbreviation IPooledRenderTarget := (Pooled FPooledRenderTargetDesc).
Abbreviation FPooledRDGBuffer := (Pooled FRDGBufferDesc).

#[global] Instance Pooled_eq_dec {D} `{EqDecision D} : EqDecision (Pooled D).
Proof. solve_decision. Defined.

(** Modelled from the spec: the lifecycle state of a logical resource
    (section 3). *)
Inductive ELifecycle := Declared | Allocated | Released.

#[global] Instance ELifecycle_eq_dec : EqDecision ELifecycle.
Proof. solve_decision. Defined.

(** Modelled from the spec: [FRDGTexture] and [FRDGBuffer]
    (RenderGraphResources.h is not at hand): debug name, descriptor,
    lifecycle state and the physical resource bound to it, if any.  The
    header reads [Name] and [Desc] and writes [PooledRenderTarget]. *)
Record FRDGTexture := {
  TexName : string;
  TexDesc : FPooledRenderTargetDesc;
  TexState : ELifecycle;
  PooledRenderTarget : option IPooledRenderTarget;
}.

Record FRDGBuffer := {
  BufName : string;
  BufDesc : FRDGBufferDesc;
  BufState : ELifecycle;
  PooledBuffer : option FPooledRDGBuffer;
}.

(** A pointer into the arena is the index of the object in its arena; a
    pointer that may be null is an [option]. *)
Abbreviation FRDGTextureRef := nat (only parsing).
Abbreviation FRDGBufferRef := nat (only parsing).

Record FRDGTextureSRVDesc := { SRVTexture : option FRDGTextureRef; SRVMipLevel : Z }.
Record FRDGTextureUAVDesc := { UAVTexture : option FRDGTextureRef; UAVMipLevel : Z }.
Record FRDGBufferSRVDesc := { SRVBuffer : option FRDGBufferRef; SRVFormat : Z }.
Record FRDGBufferUAVDesc := { UAVBuffer : option FRDGBufferRef; UAVFormat : Z }.

(** The four view classes; each is built from the name of the resource it
    views and its descriptor. *)
Inductive FRDGView :=
  | FRDGTextureSRV (Name : string) (Desc : FRDGTextureSRVDesc)
  | FRDGTextureUAV (Name : string) (Desc : FRDGTextureUAVDesc)
  | FRDGBufferSRV (Name : string) (Desc : FRDGBufferSRVDesc)
  | FRDGBufferUAV (Name : string) (Desc : FRDGBufferUAVDesc).

(** A [const FRDGResource*]: a pointer to any of the above. *)
Inductive FRDGResourceRef :=
  | RefTexture (h : nat)
  | RefBuffer (h : nat)
  | RefView (h : nat).

#[global] Instance FRDGResourceRef_eq_dec : EqDecision FRDGResourceRef.
Proof. solve_decision. Defined.

(** ** Scopes and passes *)

Record FRDGEventScope := {
  ParentScope : option nat;
  ScopeName : string;
}.

(** [ERenderGraphPassFlags]: a bit mask. *)
Definition ERenderGraphPassFlags_None : Z := 0%Z.
Definition ERenderGraphPassFlags_Compute : Z := Z.shiftl 1 0.

(** One row of the resource table of a pass: the resource, its declared
    access and whether the row is a render-target binding.  [Contents] and
    [Layout] of [FShaderParameterStructRef] are read together as this
    table. *)
Record FParameterEntry := {
  EntryResource : FRDGResourceRef;
  EntryAccess : EAccess;
  EntryRenderTarget : bool;
}.

Definition FShaderParameterStructRef := list FParameterEntry.

(** [FRHIUniformBufferLayout::NumRenderTargets]. *)
Definition NumRenderTargets (Layout : FShaderParameterStructRef) : nat :=
  length (filter (λ e, EntryRenderTarget e = true) Layout).

(** [TLambdaRenderPass]: the members of [FRenderGraphPass] and the closure,
    which is opaque and stands here by its identity. *)
Record FRenderGraphPass := {
  PassName : string;
  PassParentScope : option nat;
  ParameterStruct : FShaderParameterStructRef;
  PassFlags : Z;
  ExecuteLambda : nat;
}.

Definition IsCompute (P : FRenderGraphPass) : bool :=
  bool_decide (Z.land (PassFlags P) ERenderGraphPassFlags_Compute
               = ERenderGraphPassFlags_Compute).

Definition GetFlags (P : FRenderGraphPass) : Z := PassFlags P.
Definition GetParameters (P : FRenderGraphPass) : FShaderParameterStructRef :=
  ParameterStruct P.

#[global] Instance FParameterEntry_eq_dec : EqDecision FParameterEntry.
Proof. solve_decision. Defined.
#[global] Instance FRenderGraphPass_eq_dec : EqDecision FRenderGraphPass.
Proof. solve_decision. Defined.

(** ** The builder and what surrounds it *)

Record FDeferredInternalTextureQuery := {
  QueryTexture : option FRDGTextureRef;
  OutTexturePtr : option nat;
  bTransitionToRead : bool;
}.

Definition kMaxScopeCount : nat := 8.

(** The data members of [FRDGBuilder], but for [RHICmdList], which is a
    reference to an object of the caller and is kept in [World]. *)
Record FRDGBuilder := {
  Passes : list FRenderGraphPass;
  AllocatedTextures : gmap nat IPooledRenderTarget;
  AllocatedBuffers : gmap nat FPooledRDGBuffer;
  DeferredInternalTextureQueries : list FDeferredInternalTextureQuery;
  EventScopes : list nat;
  CurrentScope : option nat;
  ScopesStack : list (option nat);
  bHasExecuted : bool;
  Resources : list FRDGResourceRef;
}.

(** A logical resource as the analyzer sees it: a texture ([inl]) or a
    buffer ([inr]). *)
Abbreviation ResKey := (nat + nat)%type.

Definition Category (k : ResKey) : ECategory :=
  match k with inl _ => CatTexture | inr _ => CatBuffer end.

(** What is recorded on the command list. *)
Inductive RHICommand :=
  | CmdTransition (k : ResKey) (t : EResourceTransitionAccess)
  | CmdBeginRenderPass
  | CmdEndRenderPass
  | CmdExecuteLambda (P : FRenderGraphPass)
  | CmdTransitionResource (t : EResourceTransitionAccess) (rt : IPooledRenderTarget).

(** Modelled from the spec: the pool of physical resources (4.4), keyed by
    descriptor: the free instances and the identity of the next instance
    to construct. *)
Record FRenderTargetPool (D : Type) := MkPool {
  Free : list (Pooled D);
  NextId : nat;
}.
Arguments MkPool {D} _ _.
Arguments Free {D} _.
Arguments NextId {D} _.

(** Everything outside the builder that its calls read or write: the arena
    ([FMemStack]) in which textures, buffers, views and scopes are placed,
    the command list, the pools, the output slots of the caller
    ([TRefCountPtr<IPooledRenderTarget>] variables, by address) and the
    last access of each logical resource. *)
Record World := {
  Textures : list FRDGTexture;
  Buffers : list FRDGBuffer;
  Views : list FRDGView;
  Scopes : list FRDGEventScope;
  RHICmdList : list RHICommand;
  TexturePool : FRenderTargetPool FPooledRenderTargetDesc;
  BufferPool : FRenderTargetPool FRDGBufferDesc;
  Slots : gmap nat (option IPooledRenderTarget);
  AccessState : gmap ResKey EAccess;
  ParameterMemory : list Byte.byte;
}.

Abbreviation State := (World * FRDGBuilder)%type.

(** *** Field updates *)

Definition set_Textures (v : list FRDGTexture) (w : World) : World :=
  {| Textures := v; Buffers := Buffers w; Views := Views w; Scopes := Scopes w;
     RHICmdList := RHICmdList w; TexturePool := TexturePool w;
     BufferPool := BufferPool w; Slots := Slots w; AccessState := AccessState w;
     ParameterMemory := ParameterMemory w |}.
Definition set_Buffers (v : list FRDGBuffer) (w : World) : World :=
  {| Textures := Textures w; Buffers := v; Views := Views w; Scopes := Scopes w;
     RHICmdList := RHICmdList w; TexturePool := TexturePool w;
     BufferPool := BufferPool w; Slots := Slots w; AccessState := AccessState w;
     ParameterMemory := ParameterMemory w |}.
Definition set_Views (v : list FRDGView) (w : World) : World :=
  {| Textures := Textures w; Buffers := Buffers w; Views := v; Scopes := Scopes w;
     RHICmdList := RHICmdList w; TexturePool := TexturePool w;
     BufferPool := BufferPool w; Slots := Slots w; AccessState := AccessState w;
     ParameterMemory := ParameterMemory w |}.
Definition set_Scopes (v : list FRDGEventScope) (w : World) : World :=
  {| Textures := Textures w; Buffers := Buffers w; Views := Views w; Scopes := v;
     RHICmdList := RHICmdList w; TexturePool := TexturePool w;
     BufferPool := BufferPool w; Slots := Slots w; AccessState := AccessState w;
     ParameterMemory := ParameterMemory w |}.
Definition set_RHICmdList (v : list RHICommand) (w : World) : World :=
  {| Textures := Textures w; Buffers := Buffers w; Views := Views w;
     Scopes := Scopes w; RHICmdList := v; TexturePool := TexturePool w;
     BufferPool := BufferPool w; Slots := Slots w; AccessState := AccessState w;
     ParameterMemory := ParameterMemory w |}.
Definition set_TexturePool (v : FRenderTargetPool FPooledRenderTargetDesc)
    (w : World) : World :=
  {| Textures := Textures w; Buffers := Buffers w; Views := Views w;
     Scopes := Scopes w; RHICmdList := RHICmdList w; TexturePool := v;
     BufferPool := BufferPool w; Slots := Slots w; AccessState := AccessState w;
     ParameterMemory := ParameterMemory w |}.
Definition set_BufferPool (v : FRenderTargetPool FRDGBufferDesc)
    (w : World) : World :=
  {| Textures := Textures w; Buffers := Buffers w; Views := Views w;
     Scopes := Scopes w; RHICmdList := RHICmdList w; TexturePool := TexturePool w;
     BufferPool := v; Slots := Slots w; AccessState := AccessState w;
     ParameterMemory := ParameterMemory w |}.
Definition set_Slots (v : gmap nat (option IPooledRenderTarget))
    (w : World) : World :=
  {| Textures := Textures w; Buffers := Buffers w; Views := Views w;
     Scopes := Scopes w; RHICmdList := RHICmdList w; TexturePool := TexturePool w;
     BufferPool := BufferPool w; Slots := v; AccessState := AccessState w;
     ParameterMemory := ParameterMemory w |}.
Definition set_AccessState (v : gmap ResKey EAccess) (w : World) : World :=
  {| Textures := Textures w; Buffers := Buffers w; Views := Views w;
     Scopes := Scopes w; RHICmdList := RHICmdList w; TexturePool := TexturePool w;
     BufferPool := BufferPool w; Slots := Slots w; AccessState := v;
     ParameterMemory := ParameterMemory w |}.

Definition set_ParameterMemory (v : list Byte.byte) (w : World) : World :=
  {| Textures := Textures w; Buffers := Buffers w; Views := Views w;
     Scopes := Scopes w; RHICmdList := RHICmdList w; TexturePool := TexturePool w;
     BufferPool := BufferPool w; Slots := Slots w; AccessState := AccessState w;
     ParameterMemory := v |}.

Definition set_Passes (v : list FRenderGraphPass) (g : FRDGBuilder) : FRDGBuilder :=
  {| Passes := v; AllocatedTextures := AllocatedTextures g;
     AllocatedBuffers := AllocatedBuffers g;
     DeferredInternalTextureQueries := DeferredInternalTextureQueries g;
     EventScopes := EventScopes g; CurrentScope := CurrentScope g;
     ScopesStack := ScopesStack g; bHasExecuted := bHasExecuted g;
     Resources := Resources g |}.
Definition set_AllocatedTextures (v : gmap nat IPooledRenderTarget)
    (g : FRDGBuilder) : FRDGBuilder :=
  {| Passes := Passes g; AllocatedTextures := v;
     AllocatedBuffers := AllocatedBuffers g;
     DeferredInternalTextureQueries := DeferredInternalTextureQueries g;
     EventScopes := EventScopes g; CurrentScope := CurrentScope g;
     ScopesStack := ScopesStack g; bHasExecuted := bHasExecuted g;
     Resources := Resources g |}.
Definition set_AllocatedBuffers (v : gmap nat FPooledRDGBuffer)
    (g : FRDGBuilder) : FRDGBuilder :=
  {| Passes := Passes g; AllocatedTextures := AllocatedTextures g;
     AllocatedBuffers := v;
     DeferredInternalTextureQueries := DeferredInternalTextureQueries g;
     EventScopes := EventScopes g; CurrentScope := CurrentScope g;
     ScopesStack := ScopesStack g; bHasExecuted := bHasExecuted g;
     Resources := Resources g |}.
Definition set_DeferredInternalTextureQueries
    (v : list FDeferredInternalTextureQuery) (g : FRDGBuilder) : FRDGBuilder :=
  {| Passes := Passes g; AllocatedTextures := AllocatedTextures g;
     AllocatedBuffers := AllocatedBuffers g;
     DeferredInternalTextureQueries := v;
     EventScopes := EventScopes g; CurrentScope := CurrentScope g;
     ScopesStack := ScopesStack g; bHasExecuted := bHasExecuted g;
     Resources := Resources g |}.
Definition set_EventScopes (v : list nat) (g : FRDGBuilder) : FRDGBuilder :=
  {| Passes := Passes g; AllocatedTextures := AllocatedTextures g;
     AllocatedBuffers := AllocatedBuffers g;
     DeferredInternalTextureQueries := DeferredInternalTextureQueries g;
     EventScopes := v; CurrentScope := CurrentScope g;
     ScopesStack := ScopesStack g; bHasExecuted := bHasExecuted g;
     Resources := Resources g |}.
Definition set_CurrentScope (v : option nat) (g : FRDGBuilder) : FRDGBuilder :=
  {| Passes := Passes g; AllocatedTextures := AllocatedTextures g;
     AllocatedBuffers := AllocatedBuffers g;
     DeferredInternalTextureQueries := DeferredInternalTextureQueries g;
     EventScopes := EventScopes g; CurrentScope := v;
     ScopesStack := ScopesStack g; bHasExecuted := bHasExecuted g;
     Resources := Resources g |}.
Definition set_bHasExecuted (v : bool) (g : FRDGBuilder) : FRDGBuilder :=
  {| Passes := Passes g; AllocatedTextures := AllocatedTextures g;
     AllocatedBuffers := AllocatedBuffers g;
     DeferredInternalTextureQueries := DeferredInternalTextureQueries g;
     EventScopes := EventScopes g; CurrentScope := CurrentScope g;
     ScopesStack := ScopesStack g; bHasExecuted := v;
     Resources := Resources g |}.
Definition set_Resources (v : list FRDGResourceRef) (g : FRDGBuilder) : FRDGBuilder :=
  {| Passes := Passes g; AllocatedTextures := AllocatedTextures g;
     AllocatedBuffers := AllocatedBuffers g;
     DeferredInternalTextureQueries := DeferredInternalTextureQueries g;
     EventScopes := EventScopes g; CurrentScope := CurrentScope g;
     ScopesStack := ScopesStack g; bHasExecuted := bHasExecuted g;
     Resources := v |}.

(** The constructor of [FRDGBuilder]: empty containers, no current scope,
    a scope stack of [kMaxScopeCount] null entries. *)
Definition FRDGBuilder_new : FRDGBuilder :=
  {| Passes := []; AllocatedTextures := ∅; AllocatedBuffers := ∅;
     DeferredInternalTextureQueries := []; EventScopes := [];
     CurrentScope := None; ScopesStack := replicate kMaxScopeCount None;
     bHasExecuted := false; Resources := [] |}.

Definition World_empty : World :=
  {| Textures := []; Buffers := []; Views := []; Scopes := [];
     RHICmdList := []; TexturePool := MkPool [] 0; BufferPool := MkPool [] 0;
     Slots := ∅; AccessState := ∅; ParameterMemory := [] |}.

(** ** Calls: results and sequencing

    A call either halts ([check], [checkf] and a null dereference stop the
    program; the state is the one at that point) or returns, together with
    the [ensureMsgf] conditions that did not hold on the way. *)
Inductive Result (A : Type) :=
  | Halted (e : Error) (s : State)
  | Done (failed : list Error) (s : State) (a : A).
Arguments Halted {A} e s.
Arguments Done {A} failed s a.

Definition M (A : Type) : Type := State → Result A.

#[global] Instance M_ret : MRet M := λ A a s, Done [] s a.

#[global] Instance M_bind : MBind M := λ A B f m s,
  match m s with
  | Halted e s1 => Halted e s1
  | Done w1 s1 a =>
      match f a s1 with
      | Halted e s2 => Halted e s2
      | Done w2 s2 b => Done (w1 ++ w2) s2 b
      end
  end.

Definition halt {A} (e : Error) : M A := λ s, Halted e s.
Definition get_world : M World := λ s, Done [] s s.1.
Definition get_builder : M FRDGBuilder := λ s, Done [] s s.2.
Definition modify (f : State → State) : M unit := λ s, Done [] (f s) tt.
Definition modify_world (f : World → World) : M unit :=
  λ s, Done [] (f s.1, s.2) tt.
Definition modify_builder (f : FRDGBuilder → FRDGBuilder) : M unit :=
  λ s, Done [] (s.1, f s.2) tt.

(** [new(FMemStack::Get()) X(...)]: the object is placed on top of its
    arena and its address returned. *)
Definition new_texture (t : FRDGTexture) : M nat := λ s,
  Done [] (set_Textures (Textures s.1 ++ [t]) s.1, s.2) (length (Textures s.1)).
Definition new_buffer (b : FRDGBuffer) : M nat := λ s,
  Done [] (set_Buffers (Buffers s.1 ++ [b]) s.1, s.2) (length (Buffers s.1)).
Definition new_view (v : FRDGView) : M nat := λ s,
  Done [] (set_Views (Views s.1 ++ [v]) s.1, s.2) (length (Views s.1)).
Definition new_scope (sc : FRDGEventScope) : M nat := λ s,
  Done [] (set_Scopes (Scopes s.1 ++ [sc]) s.1, s.2) (length (Scopes s.1)).

(** Commands are recorded at the end of the command list. *)
Definition Record_ (cmds : list RHICommand) (s : State) : State :=
  (set_RHICmdList (RHICmdList s.1 ++ cmds) s.1, s.2).

(** ** The pool (specification, 4.4) *)

(** Modelled from the spec: [acquire] returns a free instance of the pool
    with the descriptor asked for if there is one, and constructs a new
    instance otherwise; [release] hands an instance back. *)
Definition acquire {D} `{EqDecision D} (d : D) (p : FRenderTargetPool D)
    : Pooled D * FRenderTargetPool D :=
  match list_find (λ e, PooledDesc e = d) (Free p) with
  | Some (i, e) => (e, MkPool (delete i (Free p)) (NextId p))
  | None => (MkPooled (NextId p) d, MkPool (Free p) (S (NextId p)))
  end.

Definition release {D} (e : Pooled D) (p : FRenderTargetPool D)
    : FRenderTargetPool D :=
  MkPool (e :: Free p) (NextId p).

Definition set_TexBinding (st : ELifecycle) (rt : option IPooledRenderTarget)
    (t : FRDGTexture) : FRDGTexture :=
  {| TexName := TexName t; TexDesc := TexDesc t; TexState := st;
     PooledRenderTarget := rt |}.

Definition set_BufBinding (st : ELifecycle) (pb : option FPooledRDGBuffer)
    (b : FRDGBuffer) : FRDGBuffer :=
  {| BufName := BufName b; BufDesc := BufDesc b; BufState := st;
     PooledBuffer := pb |}.

(** Modelled from the spec: [AllocateRHITextureIfNeeded] (4.4: a logical
    resource is bound lazily, just before its first use).  A texture that
    is bound already, as a registered external texture is, is left as it
    is. *)
Definition AllocateRHITextureIfNeeded (Texture : nat) (s : State) : State :=
  match Textures s.1 !! Texture with
  | Some t =>
      match PooledRenderTarget t with
      | Some _ => s
      | None =>
          let '(rt, pool) := acquire (TexDesc t) (TexturePool s.1) in
          (set_TexturePool pool
             (set_Textures
                (<[Texture := set_TexBinding Allocated (Some rt) t]> (Textures s.1))
                s.1),
           set_AllocatedTextures (<[Texture := rt]> (AllocatedTextures s.2)) s.2)
      end
  | None => s
  end.

(** Modelled from the spec: [AllocateRHIBufferIfNeeded], as for textures. *)
Definition AllocateRHIBufferIfNeeded (Buffer : nat) (s : State) : State :=
  match Buffers s.1 !! Buffer with
  | Some b =>
      match PooledBuffer b with
      | Some _ => s
      | None =>
          let '(pb, pool) := acquire (BufDesc b) (BufferPool s.1) in
          (set_BufferPool pool
             (set_Buffers
                (<[Buffer := set_BufBinding Allocated (Some pb) b]> (Buffers s.1))
                s.1),
           set_AllocatedBuffers (<[Buffer := pb]> (AllocatedBuffers s.2)) s.2)
      end
  | None => s
  end.

(** Modelled from the spec: [ReleaseRHITextureIfPossible] (4.4): the
    physical resource of a texture the graph allocated goes back to the
    pool; for an external texture, which the graph never allocated,
    release does nothing. *)
Definition ReleaseRHITextureIfPossible (Texture : nat) (s : State) : State :=
  match Textures s.1 !! Texture with
  | Some t =>
      match TexState t, PooledRenderTarget t with
      | Allocated, Some rt =>
          (set_TexturePool (release rt (TexturePool s.1))
             (set_Textures
                (<[Texture := set_TexBinding Released None t]> (Textures s.1))
                s.1),
           set_AllocatedTextures (delete Texture (AllocatedTextures s.2)) s.2)
      | _, _ => s
      end
  | None => s
  end.

(** Modelled from the spec: [ReleaseRHIBufferIfPossible], as for
    textures. *)
Definition ReleaseRHIBufferIfPossible (Buffer : nat) (s : State) : State :=
  match Buffers s.1 !! Buffer with
  | Some b =>
      match BufState b, PooledBuffer b with
      | Allocated, Some pb =>
          (set_BufferPool (release pb (BufferPool s.1))
             (set_Buffers
                (<[Buffer := set_BufBinding Released None b]> (Buffers s.1))
                s.1),
           set_AllocatedBuffers (delete Buffer (AllocatedBuffers s.2)) s.2)
      | _, _ => s
      end
  | None => s
  end.

Definition AllocateIfNeeded (k : ResKey) (s : State) : State :=
  match k with
  | inl h => AllocateRHITextureIfNeeded h s
  | inr h => AllocateRHIBufferIfNeeded h s
  end.

Definition ReleaseIfPossible (k : ResKey) (s : State) : State :=
  match k with
  | inl h => ReleaseRHITextureIfPossible h s
  | inr h => ReleaseRHIBufferIfPossible h s
  end.

(** ** The analyzer (specification, 4.3) *)

(** The logical resource an entry of a resource table stands for: a view
    stands for the resource it views. *)
Definition Underlying (w : World) (r : FRDGResourceRef) : option ResKey :=
  match r with
  | RefTexture h => Some (inl h)
  | RefBuffer h => Some (inr h)
  | RefView v =>
      match Views w !! v with
      | Some (FRDGTextureSRV _ d) => inl <$> SRVTexture d
      | Some (FRDGTextureUAV _ d) => inl <$> UAVTexture d
      | Some (FRDGBufferSRV _ d) => inr <$> SRVBuffer d
      | Some (FRDGBufferUAV _ d) => inr <$> UAVBuffer d
      | None => None
      end
  end.

(** The accesses a pass declares, in the order of its table. *)
Definition PassAccesses (w : World) (P : FRenderGraphPass)
    : list (ResKey * EAccess) :=
  omap (λ e, (λ k, (k, EntryAccess e)) <$> Underlying w (EntryResource e))
       (ParameterStruct P).

(** The keys a list of accesses mentions. *)
Definition Keys (accs : list (ResKey * EAccess)) : list ResKey := accs.*1.

(** Modelled from the spec: the index of the first and of the last pass
    that references a logical resource (4.3). *)
Definition FirstUse (k : ResKey) (all : list (list (ResKey * EAccess)))
    : option nat :=
  fst <$> list_find (λ accs, k ∈ Keys accs) all.

Definition LastUse (k : ResKey) (all : list (list (ResKey * EAccess)))
    : option nat :=
  (λ i, length all - S i)%nat <$> FirstUse k (reverse all).

(** Modelled from the spec: the resources to release after pass [i]: those
    whose last use it is.  A texture queued for extraction is kept for the
    teardown, which copies its final physical resource. *)
Definition ReleasedAfter (queued : list ResKey)
    (all : list (list (ResKey * EAccess))) (i : nat)
    (accs : list (ResKey * EAccess)) : list ResKey :=
  filter (λ k, LastUse k all = Some i ∧ k ∉ queued) (remove_dups (Keys accs)).

(** What the analyzer hands to the execution of one pass. *)
Record FPassPlan := {
  PlanPass : FRenderGraphPass;
  PlanTransitions : list (ResKey * EResourceTransitionAccess);
  PlanReleases : list ResKey;
}.

Fixpoint mapM_ {A} (f : A → M unit) (l : list A) : M unit :=
  match l with
  | [] => mret tt
  | x :: l' => f x;; mapM_ f l'
  end.

(** ** Parameter structs *)

(** [FMemory::Memzero(Dest, Count)]: [Count] zero bytes from [Dest] on. *)
Definition Memzero (Dest Count : nat) (mem : list Byte.byte) : list Byte.byte :=
  take Dest mem
  ++ replicate (Count `min` (length mem - Dest)) Byte.x00
  ++ drop (Dest + Count) mem.

Section Builder.

Variable cfg : RDGConfig.

(** [check] and [checkf] halt the program when the condition fails;
    [ensureMsgf] reports and lets the call go on.  Both are compiled out
    without [DO_CHECK].  (Misc/AssertionMacros.h is not at hand; the two
    macros are taken with the meaning the engine documents for them.) *)
Definition check (c : bool) (e : Error) : M unit := λ s,
  if DO_CHECK cfg && negb c then Halted e s else Done [] s tt.

Definition ensureMsgf (c : bool) (e : Error) : M unit := λ s,
  if DO_CHECK cfg && negb c then Done [e] s tt else Done [] s tt.

(** [Resources.Add(...)], compiled under [RENDER_GRAPH_DEBUGGING]. *)
Definition Resources_Add (r : FRDGResourceRef) : M unit :=
  if DO_CHECK cfg
  then modify_builder (λ g, set_Resources (Resources g ++ [r]) g)
  else mret tt.

(** The immediate mode is a debugging mode: [AddPass] reaches [DebugPass]
    under [DO_CHECK] only. *)
Definition ImmediateMode : bool := DO_CHECK cfg && bImmediateMode cfg.

(** *** The analyzer *)

(** Modelled from the spec: the transition between two consecutive
    accesses of a resource is looked up by (previous access, next access,
    category); [None] as previous access is the undefined state. *)
Fixpoint TransitionsOf (st : gmap ResKey EAccess)
    (accs : list (ResKey * EAccess))
    : list (ResKey * EResourceTransitionAccess) :=
  match accs with
  | [] => []
  | (k, a) :: rest =>
      match TransitionTable cfg (st !! k) a (Category k) with
      | Some t => (k, t) :: TransitionsOf (<[k := a]> st) rest
      | None => TransitionsOf (<[k := a]> st) rest
      end
  end.

Fixpoint AccessAfter (st : gmap ResKey EAccess)
    (accs : list (ResKey * EAccess)) : gmap ResKey EAccess :=
  match accs with
  | [] => st
  | (k, a) :: rest => AccessAfter (<[k := a]> st) rest
  end.

(** The transitions to apply before each pass, pass by pass. *)
Fixpoint WalkTransitions (st : gmap ResKey EAccess)
    (all : list (list (ResKey * EAccess)))
    : list (list (ResKey * EResourceTransitionAccess)) :=
  match all with
  | [] => []
  | accs :: rest =>
      TransitionsOf st accs :: WalkTransitions (AccessAfter st accs) rest
  end.

(** Modelled from the spec: [WalkGraphDependencies] (4.3): one scan of the
    pass list that gives, for each pass, the transitions to apply before
    it and the resources to release after it. *)
Definition WalkGraphDependencies (s : State) : list FPassPlan :=
  let all := PassAccesses s.1 <$> Passes s.2 in
  let queued :=
    omap (λ q, inl <$> QueryTexture q) (DeferredInternalTextureQueries s.2) in
  zip_with (λ P x, {| PlanPass := P; PlanTransitions := x.1; PlanReleases := x.2 |})
    (Passes s.2)
    (zip (WalkTransitions (AccessState s.1) all)
         (imap (ReleasedAfter queued all) all)).

(** *** Executing one pass (specification, 4.5) *)

(** Modelled from the spec: [TransitionTexture] and [TransitionUAV]: the
    transition is recorded on the command list. *)
Definition Transition (x : ResKey * EResourceTransitionAccess) : RHICommand :=
  CmdTransition x.1 x.2.

(** Modelled from the spec: step (1), acquire and transition. *)
Definition AllocateAndTransitionPassResources (P : FRenderGraphPass)
    (trs : list (ResKey * EResourceTransitionAccess)) (s : State) : State :=
  let accs := PassAccesses s.1 P in
  let s1 := foldl (λ s k, AllocateIfNeeded k s) s (Keys accs) in
  let s2 := Record_ (Transition <$> trs) s1 in
  (set_AccessState (AccessAfter (AccessState s2.1) accs) s2.1, s2.2).

(** Modelled from the spec: step (5), release after the last use. *)
Definition ReleaseUnecessaryResources (rels : list ResKey) (s : State) : State :=
  foldl (λ s k, ReleaseIfPossible k s) s rels.

(** A render-target scope is opened for a graphics pass that declares
    render targets. *)
Definition bHasRenderTargets (P : FRenderGraphPass) : bool :=
  negb (IsCompute P) && bool_decide (NumRenderTargets (ParameterStruct P) ≠ 0%nat).

(** Modelled from the spec: [ExecutePass], steps (1) to (5). *)
Definition ExecutePass (P : FRenderGraphPass)
    (trs : list (ResKey * EResourceTransitionAccess)) (rels : list ResKey)
    (s : State) : State :=
  let s1 := AllocateAndTransitionPassResources P trs s in
  let s2 :=
    Record_ ((if bHasRenderTargets P then [CmdBeginRenderPass] else [])
             ++ [CmdExecuteLambda P]
             ++ (if bHasRenderTargets P then [CmdEndRenderPass] else [])) s1 in
  ReleaseUnecessaryResources rels s2.

Definition ExecutePlan (pl : FPassPlan) (s : State) : State :=
  ExecutePass (PlanPass pl) (PlanTransitions pl) (PlanReleases pl) s.

(** Modelled from the spec: [ValidatePass] (4.2): every resource of the
    table is one the builder created, and a compute pass has no
    render-target entry; the call fails with [InvalidHandle] or
    [InvalidComputePass] otherwise. *)
Definition ValidatePass (P : FRenderGraphPass) : M unit :=
  g ← get_builder;
  check (bool_decide (Forall (λ e, EntryResource e ∈ Resources g)
                             (ParameterStruct P))) InvalidHandle;;
  check (negb (IsCompute P)
         || bool_decide (NumRenderTargets (ParameterStruct P) = 0%nat))
        InvalidComputePass.

(** Modelled from the spec: [DebugPass] (4.2): validation, and in the
    immediate mode the execution of the pass there and then; what the pass
    releases is not known before the graph is complete. *)
Definition DebugPass (P : FRenderGraphPass) : M unit :=
  ValidatePass P;;
  if bImmediateMode cfg
  then modify (λ s,
         ExecutePass P (TransitionsOf (AccessState s.1) (PassAccesses s.1 P)) [] s)
  else mret tt.

(** *** The declaration calls of the header *)

Definition RegisterExternalTexture
    (ExternalPooledTexture : option IPooledRenderTarget) (Name : string)
    : M FRDGTextureRef :=
  ensureMsgf (bool_decide (is_Some ExternalPooledTexture)) InvalidHandle;;
  match ExternalPooledTexture with
  | None => halt InvalidHandle (* [ExternalPooledTexture->GetDesc()] on null *)
  | Some rt =>
      OutTexture ← new_texture
        {| TexName := Name; TexDesc := PooledDesc rt; TexState := Declared;
           PooledRenderTarget := None |};
      modify_world (λ w,
        set_Textures (alter (set_TexBinding Declared (Some rt)) OutTexture
                            (Textures w)) w);;
      modify_builder (λ g,
        set_AllocatedTextures (<[OutTexture := rt]> (AllocatedTextures g)) g);;
      Resources_Add (RefTexture OutTexture);;
      mret OutTexture
  end.

Definition CreateTexture (Desc : FPooledRenderTargetDesc) (DebugName : string)
    : M FRDGTextureRef :=
  g ← get_builder;
  ensureMsgf (negb (bHasExecuted g)) UseAfterExecute;;
  Texture ← new_texture
    {| TexName := DebugName; TexDesc := Desc; TexState := Declared;
       PooledRenderTarget := None |};
  Resources_Add (RefTexture Texture);;
  mret Texture.

Definition CreateBuffer (Desc : FRDGBufferDesc) (DebugName : string)
    : M FRDGBufferRef :=
  g ← get_builder;
  ensureMsgf (negb (bHasExecuted g)) UseAfterExecute;;
  Buffer ← new_buffer
    {| BufName := DebugName; BufDesc := Desc; BufState := Declared;
       PooledBuffer := None |};
  Resources_Add (RefBuffer Buffer);;
  mret Buffer.

(** In the four view calls [check(Desc.Texture)] halts on a null pointer;
    without [DO_CHECK] the dereference that follows does. *)
Definition CreateSRV_Texture (Desc : FRDGTextureSRVDesc) : M nat :=
  match SRVTexture Desc with
  | None => halt InvalidHandle
  | Some h =>
      w ← get_world;
      match Textures w !! h with
      | None => halt InvalidHandle
      | Some t =>
          g ← get_builder;
          ensureMsgf (negb (bHasExecuted g)) UseAfterExecute;;
          ensureMsgf
            (bool_decide (Z.land (TargetableFlags (TexDesc t))
                                 (TexCreate_ShaderResource cfg) ≠ 0%Z))
            CapabilityMismatch;;
          SRV ← new_view (FRDGTextureSRV (TexName t) Desc);
          Resources_Add (RefView SRV);;
          mret SRV
      end
  end.

Definition CreateSRV_Buffer (Desc : FRDGBufferSRVDesc) : M nat :=
  match SRVBuffer Desc with
  | None => halt InvalidHandle
  | Some h =>
      w ← get_world;
      match Buffers w !! h with
      | None => halt InvalidHandle
      | Some b =>
          g ← get_builder;
          ensureMsgf (negb (bHasExecuted g)) UseAfterExecute;;
          SRV ← new_view (FRDGBufferSRV (BufName b) Desc);
          Resources_Add (RefView SRV);;
          mret SRV
      end
  end.

Definition CreateUAV_Texture (Desc : FRDGTextureUAVDesc) : M nat :=
  match UAVTexture Desc with
  | None => halt InvalidHandle
  | Some h =>
      w ← get_world;
      match Textures w !! h with
      | None => halt InvalidHandle
      | Some t =>
          g ← get_builder;
          ensureMsgf (negb (bHasExecuted g)) UseAfterExecute;;
          ensureMsgf
            (bool_decide (Z.land (TargetableFlags (TexDesc t))
                                 (TexCreate_UAV cfg) ≠ 0%Z))
            CapabilityMismatch;;
          UAV ← new_view (FRDGTextureUAV (TexName t) Desc);
          Resources_Add (RefView UAV);;
          mret UAV
      end
  end.

Definition CreateUAV_Buffer (Desc : FRDGBufferUAVDesc) : M nat :=
  match UAVBuffer Desc with
  | None => halt InvalidHandle
  | Some h =>
      w ← get_world;
      match Buffers w !! h with
      | None => halt InvalidHandle
      | Some b =>
          g ← get_builder;
          ensureMsgf (negb (bHasExecuted g)) UseAfterExecute;;
          UAV ← new_view (FRDGBufferUAV (BufName b) Desc);
          Resources_Add (RefView UAV);;
          mret UAV
      end
  end.

(** [AllocParameters<ParameterStructType>()]: [SizeOf] bytes are taken on
    top of the stack, holding whatever the default construction left in
    them ([Fresh], by offset), and then zeroed. *)
Definition AllocParameters (SizeOf : nat) (Fresh : nat → Byte.byte) : M nat :=
  w ← get_world;
  let OutParameterPtr := length (ParameterMemory w) in
  modify_world (λ w,
    set_ParameterMemory (ParameterMemory w ++ (Fresh <$> seq 0 SizeOf)) w);;
  modify_world (λ w,
    set_ParameterMemory (Memzero OutParameterPtr SizeOf (ParameterMemory w)) w);;
  mret OutParameterPtr.

(** The constructor of [FRenderGraphPass]. *)
Definition FRenderGraphPass_ctor (P : FRenderGraphPass) : M FRenderGraphPass :=
  (if IsCompute P
   then ensureMsgf (bool_decide (NumRenderTargets (ParameterStruct P) = 0%nat))
                   InvalidComputePass
   else mret tt);;
  mret P.

Definition AddPass (Name : string) (ParameterStruct : FShaderParameterStructRef)
    (Flags : Z) (ExecuteLambda : nat) : M unit :=
  g ← get_builder;
  check (negb (bHasExecuted g)) UseAfterExecute;;
  NewPass ← FRenderGraphPass_ctor
    {| PassName := Name; PassParentScope := CurrentScope g;
       ParameterStruct := ParameterStruct; PassFlags := Flags;
       ExecuteLambda := ExecuteLambda |};
  modify_builder (λ g, set_Passes (Passes g ++ [NewPass]) g);;
  if DO_CHECK cfg then DebugPass NewPass else mret tt.

Definition QueueTextureExtraction (Texture : option FRDGTextureRef)
    (OutTexturePtr : option nat) (bTransitionToRead : bool) : M unit :=
  check (bool_decide (is_Some Texture)) InvalidHandle;;
  check (bool_decide (is_Some OutTexturePtr)) InvalidHandle;;
  g ← get_builder;
  check (negb (bHasExecuted g)) UseAfterExecute;;
  modify_builder (λ g,
    set_DeferredInternalTextureQueries
      (DeferredInternalTextureQueries g
       ++ [{| QueryTexture := Texture; OutTexturePtr := OutTexturePtr;
              bTransitionToRead := bTransitionToRead |}]) g).

(** *** Event scopes *)

(** The class [FStackRDGEventScopeRef] exists when draw events are
    compiled; by the definition of [RENDER_GRAPH_DRAW_EVENTS] at the top
    of the header their level is then 2, and the new scope is also added
    to [EventScopes]. *)
Definition FStackRDGEventScopeRef_ctor (ScopeName : string) : M unit :=
  g ← get_builder;
  check (negb (bHasExecuted g)) UseAfterExecute;;
  NewScope ← new_scope {| ParentScope := CurrentScope g; ScopeName := ScopeName |};
  modify_builder (λ g, set_EventScopes (EventScopes g ++ [NewScope]) g);;
  modify_builder (set_CurrentScope (Some NewScope)).

Definition FStackRDGEventScopeRef_dtor : M unit :=
  g ← get_builder;
  check (bool_decide (is_Some (CurrentScope g))) InvalidHandle;;
  match CurrentScope g with
  | None => halt InvalidHandle
  | Some c =>
      w ← get_world;
      match Scopes w !! c with
      | None => halt InvalidHandle
      | Some sc => modify_builder (set_CurrentScope (ParentScope sc))
      end
  end.

(** *** Execution *)

(** Modelled from the spec: one deferred extraction (4.5): the final
    physical resource of the texture is copied into the slot of the
    caller, after a transition to readable if the request asks for one.
    A null texture or slot is a null dereference. *)
Definition ResolveQuery (q : FDeferredInternalTextureQuery) : M unit :=
  match QueryTexture q, OutTexturePtr q with
  | Some h, Some slot =>
      modify (λ s,
        let bound := Textures s.1 !! h ≫= PooledRenderTarget in
        let s1 :=
          match bTransitionToRead q, bound with
          | true, Some rt => Record_ [CmdTransitionResource EReadable rt] s
          | _, _ => s
          end in
        (set_Slots (<[slot := bound]> (Slots s1.1)) s1.1, s1.2))
  | _, _ => halt InvalidHandle
  end.

(** Modelled from the spec: [ProcessDeferredInternalResourceQueries]: the
    queued requests, in the order they were queued. *)
Definition ProcessDeferredInternalResourceQueries : M unit :=
  g ← get_builder;
  mapM_ ResolveQuery (DeferredInternalTextureQueries g).

(** Modelled from the spec: [Execute] (4.5).  It is entered once; the
    passes are executed in the order of the pass list, each with the plan
    of the analyzer, unless the immediate mode executed them as they were
    added; then the queued extractions are resolved (the header:
    extractions happen in [Execute] in the immediate mode too). *)
Definition Execute : M unit :=
  g ← get_builder;
  check (negb (bHasExecuted g)) UseAfterExecute;;
  (if ImmediateMode
   then mret tt
   else modify (λ s, foldl (λ s pl, ExecutePlan pl s) s (WalkGraphDependencies s)));;
  ProcessDeferredInternalResourceQueries;;
  if DO_CHECK cfg then modify_builder (set_bHasExecuted true) else mret tt.

(** *** Client code *)

(** A call on the builder. *)
Inductive BuilderCall :=
  | CallRegisterExternalTexture (rt : option IPooledRenderTarget) (Name : string)
  | CallCreateTexture (Desc : FPooledRenderTargetDesc) (DebugName : string)
  | CallCreateBuffer (Desc : FRDGBufferDesc) (DebugName : string)
  | CallCreateSRV_Texture (Desc : FRDGTextureSRVDesc)
  | CallCreateSRV_Buffer (Desc : FRDGBufferSRVDesc)
  | CallCreateUAV_Texture (Desc : FRDGTextureUAVDesc)
  | CallCreateUAV_Buffer (Desc : FRDGBufferUAVDesc)
  | CallAddPass (Name : string) (ParameterStruct : FShaderParameterStructRef)
      (Flags : Z) (ExecuteLambda : nat)
  | CallQueueTextureExtraction (Texture : option FRDGTextureRef)
      (OutTexturePtr : option nat) (bTransitionToRead : bool)
  | CallExecute.

Definition RunCall (c : BuilderCall) : M unit :=
  match c with
  | CallRegisterExternalTexture rt n => RegisterExternalTexture rt n;; mret tt
  | CallCreateTexture d n => CreateTexture d n;; mret tt
  | CallCreateBuffer d n => CreateBuffer d n;; mret tt
  | CallCreateSRV_Texture d => CreateSRV_Texture d;; mret tt
  | CallCreateSRV_Buffer d => CreateSRV_Buffer d;; mret tt
  | CallCreateUAV_Texture d => CreateUAV_Texture d;; mret tt
  | CallCreateUAV_Buffer d => CreateUAV_Buffer d;; mret tt
  | CallAddPass n p f l => AddPass n p f l
  | CallQueueTextureExtraction t o b => QueueTextureExtraction t o b
  | CallExecute => Execute
  end.

(** A block of client code: calls on the builder, nested blocks that open
    with [RDG_EVENT_SCOPE], and [return], which leaves the function from
    inside any number of blocks. *)
Inductive Block :=
  | BEnd
  | BReturn
  | BCall (c : BuilderCall) (rest : Block)
  | BScope (ScopeName : string) (body : Block) (rest : Block).

(** Running a block tells whether it returned.  The scope object of a
    block is destructed when the block is left, by its end or by
    [return]. *)
Fixpoint RunBlock (b : Block) : M bool :=
  match b with
  | BEnd => mret false
  | BReturn => mret true
  | BCall c rest => RunCall c;; RunBlock rest
  | BScope n body rest =>
      FStackRDGEventScopeRef_ctor n;;
      returned ← RunBlock body;
      FStackRDGEventScopeRef_dtor;;
      if (returned : bool) then mret true else RunBlock rest
  end.

End Builder.

(** ** Example configurations and states *)

Module Examples.

(** A lookup table for the analyzer. *)
Definition table (prev : option EAccess) (next : EAccess) (c : ECategory)
    : option EResourceTransitionAccess :=
  match prev, next with
  | None, AccessRead => Some EReadable
  | None, _ => Some EWritable
  | Some AccessRead, AccessRead => None
  | Some _, AccessRead => Some EReadable
  | Some AccessRead, _ => Some EWritable
  | Some _, _ => Some ERWBarrier
  end.

(** A debugging build, deferred and immediate. *)
Definition cfg_deferred : RDGConfig :=
  {| DO_CHECK := true; bImmediateMode := false;
     TexCreate_ShaderResource := Z.shiftl 1 3; TexCreate_UAV := Z.shiftl 1 15;
     TransitionTable := table |}.


Definition fresh : State := (World_empty, FRDGBuilder_new).

(** A texture descriptor that is render-targetable only, and a physical
    render target of the caller. *)
Definition desc_rt : FPooledRenderTargetDesc :=
  {| Extent := (4, 4)%Z; Format := 1%Z; TargetableFlags := 1%Z |}.

Definition external_rt : IPooledRenderTarget := MkPooled 7 desc_rt.

Definition desc_buffer : FRDGBufferDesc :=
  {| BytesPerElement := 16%Z; NumElements := 64%Z; Usage := 0%Z |}.

Definition entry (r : FRDGResourceRef) (a : EAccess) (rt : bool)
    : FParameterEntry :=
  {| EntryResource := r; EntryAccess := a; EntryRenderTarget := rt |}.

(** The state of a builder after [Execute], with one texture created and
    one pass added before. *)
Definition executed : State :=
  (set_RHICmdList
     [CmdTransition (inl 0%nat) EWritable;
      CmdBeginRenderPass;
      CmdExecuteLambda
        {| PassName := "Draw"; PassParentScope := None;
           ParameterStruct := [entry (RefTexture 0) AccessWrite true];
           PassFlags := 0%Z; ExecuteLambda := 0 |};
      CmdEndRenderPass]
     (set_TexturePool (MkPool [MkPooled 0 desc_rt] 1)
        (set_AccessState {[ inl 0%nat := AccessWrite ]}
           (set_Textures
              [{| TexName := "A"; TexDesc := desc_rt; TexState := Released;
                  PooledRenderTarget := None |}]
              World_empty))),
   set_bHasExecuted true
     (set_Resources [RefTexture 0]
        (set_Passes
           [{| PassName := "Draw"; PassParentScope := None;
               ParameterStruct := [entry (RefTexture 0) AccessWrite true];
               PassFlags := 0%Z; ExecuteLambda := 0 |}]
           FRDGBuilder_new))).

End Examples.

(** ** Definitions used by the statements *)








(** The state after [CreateTexture] on a fresh builder. *)
Definition one_texture : State :=
  (set_Textures
     [{| TexName := "A"; TexDesc := Examples.desc_rt; TexState := Declared;
         PooledRenderTarget := None |}] World_empty,
   set_Resources [RefTexture 0] FRDGBuilder_new).

Definition LacksFlag (flags mask : Z) : Prop := Z.land flags mask = 0%Z.

(** A fresh builder with one buffer whose usage word has no flag set. *)
Definition one_buffer : State :=
  (set_Buffers
     [{| BufName := "B"; BufDesc := Examples.desc_buffer; BufState := Declared;
         PooledBuffer := None |}] World_empty,
   set_Resources [RefBuffer 0] FRDGBuilder_new).

(** Allocation, transition, the callback and release change the bindings
    of textures and buffers, the pools, the command list and the access
    state; everything else stays. *)
Record ExecFrame (s s' : State) : Prop := {
  frame_Views : Views s'.1 = Views s.1;
  frame_Scopes : Scopes s'.1 = Scopes s.1;
  frame_Slots : Slots s'.1 = Slots s.1;
  frame_ParameterMemory : ParameterMemory s'.1 = ParameterMemory s.1;
  frame_Textures : length (Textures s'.1) = length (Textures s.1);
  frame_Buffers : length (Buffers s'.1) = length (Buffers s.1);
  frame_Passes : Passes s'.2 = Passes s.2;
  frame_Queries :
    DeferredInternalTextureQueries s'.2 = DeferredInternalTextureQueries s.2;
  frame_EventScopes : EventScopes s'.2 = EventScopes s.2;
  frame_CurrentScope : CurrentScope s'.2 = CurrentScope s.2;
  frame_ScopesStack : ScopesStack s'.2 = ScopesStack s.2;
  frame_bHasExecuted : bHasExecuted s'.2 = bHasExecuted s.2;
  frame_Resources : Resources s'.2 = Resources s.2;
}.

(** The [n] bytes of parameter memory at [ptr]. *)
Definition ParameterBlock (s : State) (ptr n : nat) : list Byte.byte :=
  take n (drop ptr (ParameterMemory s.1)).

(** A call keeps a relation between the state before and the state after
    (or the state at the halt). *)
Definition Keeps (R : State → State → Prop) {A} (m : M A) : Prop :=
  ∀ s, match m s with Halted _ s' => R s s' | Done _ s' _ => R s s' end.

(** What no call but the scope guards changes: the scope arena and the
    current scope. *)
Definition SameScope (s s' : State) : Prop :=
  Scopes s'.1 = Scopes s.1 ∧ CurrentScope s'.2 = CurrentScope s.2.

(** A client function of the examples: a scope around a pass and an inner
    scope that is left by [return]. *)
Definition nested_block : Block :=
  BScope "Outer"
    (BCall (CallAddPass "Draw" [] 0%Z 0)
       (BScope "Inner" BReturn (BCall (CallAddPass "Skipped" [] 0%Z 1) BEnd)))
    BEnd.

(** *** Runs of calls *)

(** [Calls cfg cs s s']: the calls [cs], made one after the other from
    state [s], all return and leave state [s']. *)
Inductive Calls (cfg : RDGConfig) : list BuilderCall → State → State → Prop :=
  | Calls_nil s : Calls cfg [] s s
  | Calls_cons c cs s w s1 s2 :
      RunCall cfg c s = Done w s1 tt →
      Calls cfg cs s1 s2 →
      Calls cfg (c :: cs) s s2.

(** The builder accepts declarations: [Execute] has not run, or nothing is
    checked. *)
Definition Building (cfg : RDGConfig) (s : State) : Prop :=
  DO_CHECK cfg && bHasExecuted s.2 = false.

(** No queued request holds a null pointer (under [DO_CHECK],
    [QueueTextureExtraction] queues no other). *)
Definition QueriesValid (s : State) : Prop :=
  Forall (λ q, is_Some (QueryTexture q) ∧ is_Some (OutTexturePtr q))
         (DeferredInternalTextureQueries s.2).


(** The physical resource bound to a texture. *)
Definition BoundTo (texs : list FRDGTexture) (h : nat)
    : option IPooledRenderTarget :=
  texs !! h ≫= PooledRenderTarget.





(** Texture [h] is as [RegisterExternalTexture] leaves it: declared, bound
    to the physical resource [rt], with the reference of the builder in
    [AllocatedTextures]. *)
Definition ExternalBound (h : nat) (rt : IPooledRenderTarget) (s : State)
    : Prop :=
  (∃ t, Textures s.1 !! h = Some t ∧ TexState t = Declared
        ∧ PooledRenderTarget t = Some rt)
  ∧ AllocatedTextures s.2 !! h = Some rt.


(** Neither the command list nor the pass list changes. *)
Definition SameCommands (s s' : State) : Prop :=
  RHICmdList s'.1 = RHICmdList s.1 ∧ Passes s'.2 = Passes s.2.




(** The calls [cs] in sequence. *)
Definition RunCalls (cfg : RDGConfig) (cs : list BuilderCall) : M unit :=
  mapM_ (RunCall cfg) cs.

(** The state a run ends in. *)
Definition StateOf {A} (r : Result A) : State :=
  match r with Halted _ s => s | Done _ s _ => s end.

(** The output slots of the caller are as they were. *)
Definition SameSlots (s s' : State) : Prop := Slots s'.1 = Slots s.1.

(** A run of the examples: an external texture is registered, read by a
    pass and queued for extraction into slot 100. *)
Definition extraction_run : list BuilderCall :=
  [CallRegisterExternalTexture (Some Examples.external_rt) "External";
   CallCreateTexture Examples.desc_rt "A";
   CallAddPass "Draw"
     [Examples.entry (RefTexture 1) AccessWrite true;
      Examples.entry (RefTexture 0) AccessRead false] 0%Z 0;
   CallQueueTextureExtraction (Some 0%nat) (Some 100%nat) true;
   CallAddPass "Blur" [Examples.entry (RefTexture 1) AccessRead false]
     ERenderGraphPassFlags_Compute 1].

(** An external texture, once bound, stays bound. *)
Definition KeepsExternal (h : nat) (rt : IPooledRenderTarget) (s s' : State)
    : Prop :=
  ExternalBound h rt s → ExternalBound h rt s'.

(** The queued requests are only ever added to, at the end. *)
Definition QueriesGrow (s s' : State) : Prop :=
  DeferredInternalTextureQueries s.2
  `prefix_of` DeferredInternalTextureQueries s'.2.

(** ** Declarations whose body the header holds in full *)

(** The declaration calls that do not reach into RenderGraphBuilder.cpp:
    all but [AddPass], which ends in [DebugPass], and [Execute]. *)
Definition IsPlainDeclaration (c : BuilderCall) : bool :=
  match c with
  | CallAddPass _ _ _ _ | CallExecute => false
  | _ => true
  end.

(** [Resources.Add(r)] on a builder, under [RENDER_GRAPH_DEBUGGING]. *)
Definition AddResource (cfg : RDGConfig) (r : FRDGResourceRef)
    (g : FRDGBuilder) : FRDGBuilder :=
  if DO_CHECK cfg then set_Resources (Resources g ++ [r]) g else g.

(** A view is a view of a resource of the arena and carries its name. *)
Definition ViewOf (w : World) (v : FRDGView) : Prop :=
  match v with
  | FRDGTextureSRV name d =>
      ∃ h t, SRVTexture d = Some h ∧ Textures w !! h = Some t ∧ name = TexName t
  | FRDGTextureUAV name d =>
      ∃ h t, UAVTexture d = Some h ∧ Textures w !! h = Some t ∧ name = TexName t
  | FRDGBufferSRV name d =>
      ∃ h b, SRVBuffer d = Some h ∧ Buffers w !! h = Some b ∧ name = BufName b
  | FRDGBufferUAV name d =>
      ∃ h b, UAVBuffer d = Some h ∧ Buffers w !! h = Some b ∧ name = BufName b
  end.

(** What a plain declaration that returns has done to the state: one
    object more in one arena (with its entry in [Resources], and in
    [AllocatedTextures] for an external texture), or one request more. *)
Inductive Declares (cfg : RDGConfig) (s : State) : State → Prop :=
  | Declares_external rt n :
      Declares cfg s
        (set_Textures
           (Textures s.1
            ++ [{| TexName := n; TexDesc := PooledDesc rt; TexState := Declared;
                   PooledRenderTarget := Some rt |}]) s.1,
         AddResource cfg (RefTexture (length (Textures s.1)))
           (set_AllocatedTextures
              (<[length (Textures s.1) := rt]> (AllocatedTextures s.2)) s.2))
  | Declares_texture d n :
      Declares cfg s
        (set_Textures
           (Textures s.1
            ++ [{| TexName := n; TexDesc := d; TexState := Declared;
                   PooledRenderTarget := None |}]) s.1,
         AddResource cfg (RefTexture (length (Textures s.1))) s.2)
  | Declares_buffer d n :
      Declares cfg s
        (set_Buffers
           (Buffers s.1
            ++ [{| BufName := n; BufDesc := d; BufState := Declared;
                   PooledBuffer := None |}]) s.1,
         AddResource cfg (RefBuffer (length (Buffers s.1))) s.2)
  | Declares_view v :
      ViewOf s.1 v →
      Declares cfg s
        (set_Views (Views s.1 ++ [v]) s.1,
         AddResource cfg (RefView (length (Views s.1))) s.2)
  | Declares_query q :
      (DO_CHECK cfg = true →
       is_Some (QueryTexture q) ∧ is_Some (OutTexturePtr q)) →
      Declares cfg s
        (s.1,
         set_DeferredInternalTextureQueries
           (DeferredInternalTextureQueries s.2 ++ [q]) s.2).

(** The handles of one kind that a list of resource pointers holds. *)
Definition TextureRefs (l : list FRDGResourceRef) : list nat :=
  omap (λ r, match r with RefTexture h => Some h | _ => None end) l.
Definition BufferRefs (l : list FRDGResourceRef) : list nat :=
  omap (λ r, match r with RefBuffer h => Some h | _ => None end) l.
Definition ViewRefs (l : list FRDGResourceRef) : list nat :=
  omap (λ r, match r with RefView h => Some h | _ => None end) l.

(** [Resources] lists every object of the three arenas once, each kind in
    the order of creation. *)
Definition Tracked (s : State) : Prop :=
  TextureRefs (Resources s.2) = seq 0 (length (Textures s.1))
  ∧ BufferRefs (Resources s.2) = seq 0 (length (Buffers s.1))
  ∧ ViewRefs (Resources s.2) = seq 0 (length (Views s.1)).

(** The reference the builder keeps in [AllocatedTextures] and the
    pointer of the texture itself agree, for every handle. *)
Definition BindingsAgree (s : State) : Prop :=
  ∀ h, AllocatedTextures s.2 !! h = BoundTo (Textures s.1) h.

(** Every view of the arena is a view of a resource of the arena. *)
Definition ViewsValid (s : State) : Prop :=
  Forall (ViewOf s.1) (Views s.1).

(** The requests a list of calls queues. *)
Definition QueuedBy (cs : list BuilderCall) : list FDeferredInternalTextureQuery :=
  omap (λ c,
          match c with
          | CallQueueTextureExtraction t o b =>
              Some {| QueryTexture := t; OutTexturePtr := o;
                      bTransitionToRead := b |}
          | _ => None
          end) cs.

(** A run of plain declarations of the examples. *)
Definition declaration_run : list BuilderCall :=
  [CallRegisterExternalTexture (Some Examples.external_rt) "External";
   CallCreateTexture Examples.desc_rt "A";
   CallCreateBuffer Examples.desc_buffer "B";
   CallCreateSRV_Texture {| SRVTexture := Some 1%nat; SRVMipLevel := 0 |};
   CallCreateUAV_Buffer {| UAVBuffer := Some 0%nat; UAVFormat := 0 |};
   CallQueueTextureExtraction (Some 0%nat) (Some 100%nat) true;
   CallQueueTextureExtraction (Some 1%nat) (Some 101%nat) false].

Definition IsRegister (c : BuilderCall) : bool :=
  match c with CallRegisterExternalTexture _ _ => true | _ => false end.

(** The physical buffer bound to a buffer. *)
Definition BufferBoundTo (bufs : list FRDGBuffer) (h : nat)
    : option FPooledRDGBuffer :=
  bufs !! h ≫= PooledBuffer.

(** No binding is added: the maps of the builder are as they were and a
    resource that is bound after was bound before. *)
Definition BindsNothing (s s' : State) : Prop :=
  AllocatedTextures s'.2 = AllocatedTextures s.2
  ∧ AllocatedBuffers s'.2 = AllocatedBuffers s.2
  ∧ (∀ h rt, BoundTo (Textures s'.1) h = Some rt →
             BoundTo (Textures s.1) h = Some rt)
  ∧ (∀ h pb, BufferBoundTo (Buffers s'.1) h = Some pb →
             BufferBoundTo (Buffers s.1) h = Some pb).

(** Nothing is recorded, taken from a pool or written to a slot. *)
Definition NoRHIEffect (s s' : State) : Prop :=
  RHICmdList s'.1 = RHICmdList s.1
  ∧ TexturePool s'.1 = TexturePool s.1
  ∧ BufferPool s'.1 = BufferPool s.1
  ∧ Slots s'.1 = Slots s.1
  ∧ AccessState s'.1 = AccessState s.1.

(** The arenas only grow, at their end. *)
Definition ArenasGrow (s s' : State) : Prop :=
  Textures s.1 `prefix_of` Textures s'.1
  ∧ Buffers s.1 `prefix_of` Buffers s'.1
  ∧ Views s.1 `prefix_of` Views s'.1.

(** The queued requests are as they were. *)
Definition SameQueries (s s' : State) : Prop :=
  DeferredInternalTextureQueries s'.2 = DeferredInternalTextureQueries s.2.

(** The resource a view handle resolves to is in its arena. *)
Definition Resolves (w : World) (v : nat) : Prop :=
  match Underlying w (RefView v) with
  | Some (inl h) => is_Some (Textures w !! h)
  | Some (inr h) => is_Some (Buffers w !! h)
  | None => False
  end.

(** ** The chain of scopes *)

(** The names of the scopes from [c] up to the root, read through
    [ParentScope]; [fuel] bounds the walk. *)
Fixpoint ScopeChain (fuel : nat) (scopes : list FRDGEventScope)
    (c : option nat) : list string :=
  match fuel, c with
  | S fuel', Some i =>
      match scopes !! i with
      | Some sc => ScopeName sc :: ScopeChain fuel' scopes (ParentScope sc)
      | None => []
      end
  | _, _ => []
  end.

(** The scopes the builder is in, innermost first. *)
Definition ScopePath (s : State) : list string :=
  ScopeChain (length (Scopes s.1)) (Scopes s.1) (CurrentScope s.2).

(** The parent of a scope is an older scope, and the current scope is a
    scope of the arena. *)
Definition WellScoped (s : State) : Prop :=
  (∀ i sc p, Scopes s.1 !! i = Some sc → ParentScope sc = Some p → (p < i)%nat)
  ∧ (∀ c, CurrentScope s.2 = Some c → (c < length (Scopes s.1))%nat).

(** A function of the examples with three nested scopes. *)
Definition three_scopes : Block :=
  BScope "Frame"
    (BScope "Lighting"
       (BCall (CallAddPass "Shadows" [] 0%Z 0)
          (BScope "Bloom" (BCall (CallAddPass "Blur" [] 0%Z 1) BEnd) BEnd))
       BEnd)
    BEnd.

(** The pass list is as it was. *)
Definition SamePasses (s s' : State) : Prop := Passes s'.2 = Passes s.2.

(** ** Transitions of one resource *)







(** The builder of the examples inside scope "B" inside scope "A". *)
Definition in_two_scopes : State :=
  StateOf
    (FStackRDGEventScopeRef_ctor Examples.cfg_deferred "B"
       (StateOf
          (FStackRDGEventScopeRef_ctor Examples.cfg_deferred "A"
             Examples.fresh))).

(** * Properties *)

(** ** Proof tools *)

Ltac run_step :=
  unfold mbind, mret, M_bind, M_ret, check, ensureMsgf, get_builder,
    get_world, modify, modify_world, modify_builder, halt, new_texture,
    new_buffer, new_view, new_scope, Resources_Add, FRenderGraphPass_ctor in *;
  simpl in *.

Ltac run := repeat run_step.

(** [executed] is what the calls compute. *)
Lemma executed_reached :
  (_ ← CreateTexture Examples.cfg_deferred Examples.desc_rt "A";
   AddPass Examples.cfg_deferred "Draw"
     [Examples.entry (RefTexture 0) AccessWrite true] 0 0;;
   Execute Examples.cfg_deferred) Examples.fresh
  = Done [] Examples.executed tt.
Proof. vm_compute. reflexivity. Qed.

(** ** What the execution of passes leaves alone *)

Lemma ExecFrame_refl s : ExecFrame s s.
Proof. by constructor. Qed.

Lemma ExecFrame_trans s1 s2 s3 :
  ExecFrame s1 s2 → ExecFrame s2 s3 → ExecFrame s1 s3.
Proof. intros [] []. constructor; congruence. Qed.

Lemma ExecFrame_foldl {A} (f : A → State → State) (l : list A) :
  (∀ a s, ExecFrame s (f a s)) →
  ∀ s, ExecFrame s (foldl (λ s a, f a s) s l).
Proof.
  intros Hf. induction l as [|a l IH]; intros s; simpl.
  - apply ExecFrame_refl.
  - eapply ExecFrame_trans; [apply Hf | apply IH].
Qed.

Lemma AllocateIfNeeded_frame k s : ExecFrame s (AllocateIfNeeded k s).
Proof.
  destruct s as [w g], k as [h|h]; simpl.
  - unfold AllocateRHITextureIfNeeded; simpl.
    destruct (Textures w !! h) as [t|]; [|apply ExecFrame_refl].
    destruct (PooledRenderTarget t); [apply ExecFrame_refl|].
    destruct (acquire _ _) as [rt pool].
    constructor; simpl; auto using length_insert.
  - unfold AllocateRHIBufferIfNeeded; simpl.
    destruct (Buffers w !! h) as [b|]; [|apply ExecFrame_refl].
    destruct (PooledBuffer b); [apply ExecFrame_refl|].
    destruct (acquire _ _) as [pb pool].
    constructor; simpl; auto using length_insert.
Qed.

Lemma ReleaseIfPossible_frame k s : ExecFrame s (ReleaseIfPossible k s).
Proof.
  destruct s as [w g], k as [h|h]; simpl.
  - unfold ReleaseRHITextureIfPossible; simpl.
    destruct (Textures w !! h) as [t|]; [|apply ExecFrame_refl].
    destruct (TexState t), (PooledRenderTarget t);
      try apply ExecFrame_refl.
    constructor; simpl; auto using length_insert.
  - unfold ReleaseRHIBufferIfPossible; simpl.
    destruct (Buffers w !! h) as [b|]; [|apply ExecFrame_refl].
    destruct (BufState b), (PooledBuffer b);
      try apply ExecFrame_refl.
    constructor; simpl; auto using length_insert.
Qed.

Lemma Record_frame cmds s : ExecFrame s (Record_ cmds s).
Proof. by constructor. Qed.

Lemma ExecutePass_frame P trs rels s :
  ExecFrame s (ExecutePass P trs rels s).
Proof.
  unfold ExecutePass, ReleaseUnecessaryResources,
    AllocateAndTransitionPassResources.
  eapply ExecFrame_trans; [|apply ExecFrame_foldl, ReleaseIfPossible_frame].
  eapply ExecFrame_trans; [|apply Record_frame].
  eapply ExecFrame_trans;
    [apply (ExecFrame_foldl AllocateIfNeeded), AllocateIfNeeded_frame|].
  by constructor.
Qed.

Lemma ExecutePlans_frame plan s :
  ExecFrame s (foldl (λ s pl, ExecutePlan pl s) s plan).
Proof. apply ExecFrame_foldl. intros; apply ExecutePass_frame. Qed.









(** ** What [AddPass] computes *)




(** ** Use after [Execute] *)

(** C1, as the code has it: in a debugging build, on a builder whose
    [Execute] has run, [AddPass] and [QueueTextureExtraction] halt with
    [UseAfterExecute] and change nothing; [CreateTexture], [CreateBuffer],
    [CreateSRV] and [CreateUAV] report [UseAfterExecute] through
    [ensureMsgf], which does not stop them: the resource is created and
    returned, it is appended to its arena and to [Resources], and the
    passes, the queued extractions and the allocated textures stay as they
    were. *)
Theorem declaration_after_execute (cfg : RDGConfig) (s : State) :
  DO_CHECK cfg = true → bHasExecuted s.2 = true →
  (∀ n p f l, AddPass cfg n p f l s = Halted UseAfterExecute s)
  ∧ (∀ t o b, QueueTextureExtraction cfg (Some t) (Some o) b s
              = Halted UseAfterExecute s)
  ∧ (∀ d n, CreateTexture cfg d n s
      = Done [UseAfterExecute]
          (set_Textures
             (Textures s.1
              ++ [{| TexName := n; TexDesc := d; TexState := Declared;
                     PooledRenderTarget := None |}]) s.1,
           set_Resources (Resources s.2 ++ [RefTexture (length (Textures s.1))])
             s.2)
          (length (Textures s.1)))
  ∧ (∀ d n, CreateBuffer cfg d n s
      = Done [UseAfterExecute]
          (set_Buffers
             (Buffers s.1
              ++ [{| BufName := n; BufDesc := d; BufState := Declared;
                     PooledBuffer := None |}]) s.1,
           set_Resources (Resources s.2 ++ [RefBuffer (length (Buffers s.1))])
             s.2)
          (length (Buffers s.1)))
  ∧ (∀ d h t, SRVTexture d = Some h → Textures s.1 !! h = Some t →
      ∃ w, CreateSRV_Texture cfg d s
      = Done (UseAfterExecute :: w)
          (set_Views (Views s.1 ++ [FRDGTextureSRV (TexName t) d]) s.1,
           set_Resources (Resources s.2 ++ [RefView (length (Views s.1))]) s.2)
          (length (Views s.1)))
  ∧ (∀ d h t, UAVTexture d = Some h → Textures s.1 !! h = Some t →
      ∃ w, CreateUAV_Texture cfg d s
      = Done (UseAfterExecute :: w)
          (set_Views (Views s.1 ++ [FRDGTextureUAV (TexName t) d]) s.1,
           set_Resources (Resources s.2 ++ [RefView (length (Views s.1))]) s.2)
          (length (Views s.1)))
  ∧ (∀ d h b, SRVBuffer d = Some h → Buffers s.1 !! h = Some b →
      CreateSRV_Buffer cfg d s
      = Done [UseAfterExecute]
          (set_Views (Views s.1 ++ [FRDGBufferSRV (BufName b) d]) s.1,
           set_Resources (Resources s.2 ++ [RefView (length (Views s.1))]) s.2)
          (length (Views s.1)))
  ∧ (∀ d h b, UAVBuffer d = Some h → Buffers s.1 !! h = Some b →
      CreateUAV_Buffer cfg d s
      = Done [UseAfterExecute]
          (set_Views (Views s.1 ++ [FRDGBufferUAV (BufName b) d]) s.1,
           set_Resources (Resources s.2 ++ [RefView (length (Views s.1))]) s.2)
          (length (Views s.1))).
Proof.
  intros Hc He. destruct s as [w g]. simpl in *.
  repeat split; intros;
    unfold AddPass, QueueTextureExtraction, CreateTexture, CreateBuffer,
      CreateSRV_Texture, CreateUAV_Texture, CreateSRV_Buffer, CreateUAV_Buffer;
    repeat (run_step; rewrite ?Hc, ?He;
            repeat match goal with H : _ = Some _ |- _ => rewrite H end);
    try reflexivity.
  - case_bool_decide; simpl; eexists; reflexivity.
  - case_bool_decide; simpl; eexists; reflexivity.
Qed.

Lemma declaration_after_execute_witness :
  (∀ n p f l, AddPass Examples.cfg_deferred n p f l Examples.executed
              = Halted UseAfterExecute Examples.executed)
  ∧ (∀ d n, ∃ s', CreateTexture Examples.cfg_deferred d n Examples.executed
                  = Done [UseAfterExecute] s' 1%nat
                  ∧ Passes s'.2 = Passes Examples.executed.2).
Proof.
  pose proof (declaration_after_execute Examples.cfg_deferred Examples.executed
                eq_refl eq_refl) as (Ha & _ & Ht & _).
  split; [exact Ha|].
  intros d n. eexists. split; [apply Ht|reflexivity].
Defined.

(** C1 as stated fails on the code: on the executed builder of the
    examples [RegisterExternalTexture] raises no error at all and adds the
    texture to [AllocatedTextures] and [Resources], and [CreateTexture]
    does not fail: it returns the handle of a new texture, which
    [Resources] now lists. *)
Lemma declaration_after_execute_accepted :
  bHasExecuted Examples.executed.2 = true
  ∧ (∃ s', RegisterExternalTexture Examples.cfg_deferred
             (Some Examples.external_rt) "External" Examples.executed
           = Done [] s' 1%nat
           ∧ AllocatedTextures Examples.executed.2 !! 1%nat = None
           ∧ AllocatedTextures s'.2 !! 1%nat = Some Examples.external_rt
           ∧ Resources s'.2 = Resources Examples.executed.2 ++ [RefTexture 1])
  ∧ (∃ s', CreateTexture Examples.cfg_deferred Examples.desc_rt "Late"
             Examples.executed
           = Done [UseAfterExecute] s' 1%nat
           ∧ Resources Examples.executed.2 = [RefTexture 0]
           ∧ Resources s'.2 = [RefTexture 0; RefTexture 1]).
Proof.
  split; [reflexivity|]. split.
  - eexists. split; [vm_compute; reflexivity|]. by vm_compute.
  - eexists. split; [vm_compute; reflexivity|]. by vm_compute.
Qed.

(** ** Capabilities of views *)

(** C3, as the code has it: in a debugging build the two texture view
    calls test the capability flag with [ensureMsgf]: on a texture that
    lacks the flag [CapabilityMismatch] is reported and the view is
    created and returned all the same; on a texture that has it nothing
    is reported.  The two buffer view calls make no capability test and
    never raise [CapabilityMismatch]. *)
Theorem view_capability (cfg : RDGConfig) (s : State) :
  DO_CHECK cfg = true →
  (∀ d h t, UAVTexture d = Some h → Textures s.1 !! h = Some t →
     ∃ w s', CreateUAV_Texture cfg d s = Done w s' (length (Views s.1))
       ∧ Views s'.1 = Views s.1 ++ [FRDGTextureUAV (TexName t) d]
       ∧ (CapabilityMismatch ∈ w
          ↔ LacksFlag (TargetableFlags (TexDesc t)) (TexCreate_UAV cfg)))
  ∧ (∀ d h t, SRVTexture d = Some h → Textures s.1 !! h = Some t →
     ∃ w s', CreateSRV_Texture cfg d s = Done w s' (length (Views s.1))
       ∧ Views s'.1 = Views s.1 ++ [FRDGTextureSRV (TexName t) d]
       ∧ (CapabilityMismatch ∈ w
          ↔ LacksFlag (TargetableFlags (TexDesc t))
                      (TexCreate_ShaderResource cfg)))
  ∧ (∀ d h b, UAVBuffer d = Some h → Buffers s.1 !! h = Some b →
     ∃ w s', CreateUAV_Buffer cfg d s = Done w s' (length (Views s.1))
       ∧ Views s'.1 = Views s.1 ++ [FRDGBufferUAV (BufName b) d]
       ∧ CapabilityMismatch ∉ w)
  ∧ (∀ d h b, SRVBuffer d = Some h → Buffers s.1 !! h = Some b →
     ∃ w s', CreateSRV_Buffer cfg d s = Done w s' (length (Views s.1))
       ∧ Views s'.1 = Views s.1 ++ [FRDGBufferSRV (BufName b) d]
       ∧ CapabilityMismatch ∉ w).
Proof.
  intros Hc. destruct s as [w g]. simpl.
  repeat split; intros d h x Hd Hx;
    unfold CreateUAV_Texture, CreateSRV_Texture, CreateUAV_Buffer,
      CreateSRV_Buffer, LacksFlag;
    rewrite Hd; run; rewrite Hx, Hc; simpl;
    destruct (bHasExecuted g); simpl;
    try case_bool_decide; simpl;
    eexists; eexists; (split; [reflexivity|]); (split; [reflexivity|]);
    rewrite ?elem_of_cons, ?elem_of_nil; try split; intros; naive_solver.
Qed.

Lemma view_capability_witness :
  ∃ w s',
    CreateUAV_Texture Examples.cfg_deferred
      {| UAVTexture := Some 0%nat; UAVMipLevel := 0 |} one_texture
    = Done w s' 0%nat
    ∧ Views s'.1 = [FRDGTextureUAV "A" {| UAVTexture := Some 0%nat; UAVMipLevel := 0 |}]
    ∧ (CapabilityMismatch ∈ w
       ↔ LacksFlag 1 (TexCreate_UAV Examples.cfg_deferred)).
Proof.
  destruct (view_capability Examples.cfg_deferred one_texture eq_refl)
    as (Hu & _).
  exact (Hu {| UAVTexture := Some 0%nat; UAVMipLevel := 0 |} 0%nat _
            eq_refl eq_refl).
Defined.

(** C3 as stated fails on the code: a UAV view and an SRV view of a
    buffer whose descriptor has no usage flag at all are created without
    any error. *)
Lemma buffer_view_without_capability :
  Usage Examples.desc_buffer = 0%Z
  ∧ (∃ s', CreateUAV_Buffer Examples.cfg_deferred
             {| UAVBuffer := Some 0%nat; UAVFormat := 0 |} one_buffer
           = Done [] s' 0%nat
           ∧ Views s'.1 = [FRDGBufferUAV "B" {| UAVBuffer := Some 0%nat; UAVFormat := 0 |}])
  ∧ (∃ s', CreateSRV_Buffer Examples.cfg_deferred
             {| SRVBuffer := Some 0%nat; SRVFormat := 0 |} one_buffer
           = Done [] s' 0%nat
           ∧ Views s'.1 = [FRDGBufferSRV "B" {| SRVBuffer := Some 0%nat; SRVFormat := 0 |}]).
Proof.
  split; [reflexivity|].
  split; eexists; (split; [vm_compute; reflexivity|reflexivity]).
Qed.

(** ** Parameter structs *)

Lemma Memzero_top (old fresh : list Byte.byte) :
  Memzero (length old) (length fresh) (old ++ fresh)
  = old ++ replicate (length fresh) Byte.x00.
Proof.
  unfold Memzero.
  rewrite take_app_length, length_app.
  replace (length old + length fresh - length old)%nat with (length fresh)
    by lia.
  rewrite Nat.min_id, drop_ge by (rewrite length_app; lia).
  by rewrite app_nil_r.
Qed.

(** C10: [AllocParameters] returns, at the top of the parameter memory, a
    block of [SizeOf] bytes that are all zero whatever the construction
    left in them, so two calls for the same struct type hand out equal
    blocks; the memory below the block and the builder are untouched. *)
Theorem AllocParameters_zeroed (SizeOf : nat) (Fresh1 Fresh2 : nat → Byte.byte)
    (s1 s2 : State) :
  ∃ s1' s2',
    AllocParameters SizeOf Fresh1 s1
    = Done [] s1' (length (ParameterMemory s1.1))
    ∧ AllocParameters SizeOf Fresh2 s2
      = Done [] s2' (length (ParameterMemory s2.1))
    ∧ ParameterBlock s1' (length (ParameterMemory s1.1)) SizeOf
      = replicate SizeOf Byte.x00
    ∧ ParameterBlock s2' (length (ParameterMemory s2.1)) SizeOf
      = ParameterBlock s1' (length (ParameterMemory s1.1)) SizeOf
    ∧ take (length (ParameterMemory s1.1)) (ParameterMemory s1'.1)
      = ParameterMemory s1.1
    ∧ s1'.2 = s1.2.
Proof.
  assert (Hz : ∀ Fresh (s : State),
    Memzero (length (ParameterMemory s.1)) SizeOf
      (ParameterMemory s.1 ++ (Fresh <$> seq 0 SizeOf))
    = ParameterMemory s.1 ++ replicate SizeOf Byte.x00).
  { intros Fresh s.
    pose proof (Memzero_top (ParameterMemory s.1) (Fresh <$> seq 0 SizeOf)) as H.
    by rewrite length_fmap, length_seq in H. }
  assert (Hb : ∀ old : list Byte.byte,
    take SizeOf (drop (length old) (old ++ replicate SizeOf Byte.x00))
    = replicate SizeOf Byte.x00).
  { intros old. rewrite drop_app_length.
    apply take_ge. by rewrite length_replicate. }
  destruct s1 as [w1 g1], s2 as [w2 g2].
  eexists. eexists.
  split; [unfold AllocParameters; run; reflexivity|].
  split; [unfold AllocParameters; run; reflexivity|].
  unfold ParameterBlock. simpl.
  pose proof (Hz Fresh1 (w1, g1)) as H1. pose proof (Hz Fresh2 (w2, g2)) as H2.
  simpl in H1, H2. rewrite H1, H2, !Hb.
  repeat split. by rewrite take_app_length.
Qed.

(** ** Relations kept by calls *)

Section Keeps.

Context (R : State → State → Prop) `{!PreOrder R}.

Lemma Keeps_ret {A} (a : A) : Keeps R (mret a).
Proof. intros s. simpl. reflexivity. Qed.

Lemma Keeps_halt {A} e : Keeps R (@halt A e).
Proof. intros s. simpl. reflexivity. Qed.

Lemma Keeps_bind {A B} (m : M A) (f : A → M B) :
  Keeps R m → (∀ a, Keeps R (f a)) → Keeps R (m ≫= f).
Proof.
  intros Hm Hf s. unfold mbind, M_bind.
  specialize (Hm s). destruct (m s) as [e s1|w1 s1 a]; [done|].
  specialize (Hf a s1). destruct (f a s1) as [e s2|w2 s2 b];
    by etrans.
Qed.

Lemma Keeps_check cfg c e : Keeps R (check cfg c e).
Proof. intros s. unfold check. by destruct (_ && _). Qed.

Lemma Keeps_ensureMsgf cfg c e : Keeps R (ensureMsgf cfg c e).
Proof. intros s. unfold ensureMsgf. by destruct (_ && _). Qed.

Lemma Keeps_get_world : Keeps R get_world.
Proof. intros s. simpl. reflexivity. Qed.

Lemma Keeps_get_builder : Keeps R get_builder.
Proof. intros s. simpl. reflexivity. Qed.

Lemma Keeps_modify f : (∀ s, R s (f s)) → Keeps R (modify f).
Proof. intros Hf s. apply Hf. Qed.

Lemma Keeps_modify_world f : (∀ s, R s (f s.1, s.2)) → Keeps R (modify_world f).
Proof. intros Hf s. apply Hf. Qed.

Lemma Keeps_modify_builder f :
  (∀ s, R s (s.1, f s.2)) → Keeps R (modify_builder f).
Proof. intros Hf s. apply Hf. Qed.

Lemma Keeps_mapM_ {A} (f : A → M unit) l :
  (∀ a, Keeps R (f a)) → Keeps R (mapM_ f l).
Proof.
  intros Hf. induction l as [|a l IH]; simpl.
  - apply Keeps_ret.
  - apply Keeps_bind; auto.
Qed.

End Keeps.

(** Splits a call into its steps; what is left are the steps that write
    the state. *)
Ltac keeps_step :=
  match goal with
  | |- Keeps _ (_ ≫= _) => apply Keeps_bind; [try apply _| |intros]
  | |- Keeps _ (mret _) => apply Keeps_ret; try apply _
  | |- Keeps _ (halt _) => apply Keeps_halt; try apply _
  | |- Keeps _ (check _ _ _) => apply Keeps_check; try apply _
  | |- Keeps _ (ensureMsgf _ _ _) => apply Keeps_ensureMsgf; try apply _
  | |- Keeps _ get_world => apply Keeps_get_world; try apply _
  | |- Keeps _ get_builder => apply Keeps_get_builder; try apply _
  | |- Keeps _ (mapM_ _ _) => apply Keeps_mapM_; [try apply _|intros]
  | |- Keeps _ (modify _) => apply Keeps_modify; intros [? ?]; simpl
  | |- Keeps _ (modify_world _) => apply Keeps_modify_world; intros [? ?]; simpl
  | |- Keeps _ (modify_builder _) =>
      apply Keeps_modify_builder; intros [? ?]; simpl
  | |- Keeps _ (match ?x with _ => _ end) => destruct x
  | |- Keeps _ (if ?x then _ else _) => destruct x
  | |- Keeps _ (new_texture _) => intros [? ?]; simpl
  | |- Keeps _ (new_buffer _) => intros [? ?]; simpl
  | |- Keeps _ (new_view _) => intros [? ?]; simpl
  | |- Keeps _ (new_scope _) => intros [? ?]; simpl
  end.

Ltac keeps :=
  unfold RunCall, RegisterExternalTexture, CreateTexture, CreateBuffer,
    CreateSRV_Texture, CreateSRV_Buffer, CreateUAV_Texture, CreateUAV_Buffer,
    AddPass, QueueTextureExtraction, Execute, DebugPass, ValidatePass,
    ProcessDeferredInternalResourceQueries, ResolveQuery, Resources_Add,
    FRenderGraphPass_ctor, FStackRDGEventScopeRef_ctor,
    FStackRDGEventScopeRef_dtor;
  repeat keeps_step.

(** ** Event scopes *)

#[local] Instance SameScope_preorder : PreOrder SameScope.
Proof.
  split.
  - by intros s.
  - intros s1 s2 s3 [] []. split; congruence.
Qed.

Lemma ExecFrame_SameScope s s' : ExecFrame s s' → SameScope s s'.
Proof. intros []. by split. Qed.

Lemma RunCall_SameScope cfg c : Keeps SameScope (RunCall cfg c).
Proof.
  destruct c; keeps; try done.
  - apply ExecFrame_SameScope, ExecutePass_frame.
  - apply ExecFrame_SameScope, ExecutePlans_frame.
  - by destruct (bTransitionToRead _), (_ ≫= _).
Qed.

Lemma ctor_result cfg n s :
  DO_CHECK cfg && bHasExecuted s.2 = false →
  FStackRDGEventScopeRef_ctor cfg n s
  = Done []
      (set_Scopes
         (Scopes s.1 ++ [{| ParentScope := CurrentScope s.2; ScopeName := n |}])
         s.1,
       set_CurrentScope (Some (length (Scopes s.1)))
         (set_EventScopes (EventScopes s.2 ++ [length (Scopes s.1)]) s.2))
      tt.
Proof.
  intros Hx. destruct s as [w g]. unfold FStackRDGEventScopeRef_ctor. run.
  simpl in Hx. by rewrite negb_involutive, Hx.
Qed.

Lemma dtor_result cfg s c sc :
  CurrentScope s.2 = Some c → Scopes s.1 !! c = Some sc →
  FStackRDGEventScopeRef_dtor cfg s
  = Done [] (s.1, set_CurrentScope (ParentScope sc) s.2) tt.
Proof.
  intros Hc Hs. destruct s as [w g]. unfold FStackRDGEventScopeRef_dtor. run.
  simpl in Hc, Hs. rewrite Hc. simpl. rewrite andb_false_r. simpl.
  by rewrite Hs.
Qed.

Lemma ctor_halts cfg n s :
  DO_CHECK cfg && bHasExecuted s.2 = true →
  FStackRDGEventScopeRef_ctor cfg n s = Halted UseAfterExecute s.
Proof.
  intros Hx. destruct s as [w g]. unfold FStackRDGEventScopeRef_ctor. run.
  simpl in Hx. apply andb_true_iff in Hx as [-> ->]. done.
Qed.

(** A block that returns leaves the current scope as it found it, and the
    scopes that were in the arena where they were. *)
Lemma RunBlock_balanced cfg blk :
  ∀ s w s' r, RunBlock cfg blk s = Done w s' r →
    CurrentScope s'.2 = CurrentScope s.2 ∧ Scopes s.1 `prefix_of` Scopes s'.1.
Proof.
  induction blk as [| |c rest IH|n body IHb rest IHr]; intros s w s' r Hrun;
    simpl in Hrun.
  - by inversion Hrun.
  - by inversion Hrun.
  - unfold mbind, M_bind in Hrun.
    pose proof (RunCall_SameScope cfg c s) as Hc.
    destruct (RunCall cfg c s) as [e s1|w1 s1 []]; [done|].
    destruct (RunBlock cfg rest s1) as [e s2|w2 s2 r2] eqn:Hr; [done|].
    inversion Hrun; subst. destruct Hc as [Hsc Hcs].
    apply IH in Hr as [-> Hp]. by rewrite Hcs, <- Hsc.
  - unfold mbind, M_bind in Hrun.
    destruct (DO_CHECK cfg && bHasExecuted s.2) eqn:Hx.
    { by rewrite (ctor_halts _ _ _ Hx) in Hrun. }
    rewrite (ctor_result _ _ _ Hx) in Hrun.
    match type of Hrun with context [RunBlock cfg body ?s1] =>
      set (s1' := s1) in *; destruct (RunBlock cfg body s1') as [e s2|w2 s2 r2]
        eqn:Hb; [done|]
    end.
    apply IHb in Hb as [Hcur Hpre]. subst s1'. simpl in Hcur, Hpre.
    assert (Hs2 : Scopes s2.1 !! length (Scopes s.1)
                  = Some {| ParentScope := CurrentScope s.2; ScopeName := n |}).
    { destruct Hpre as [k ->]. rewrite lookup_app_l.
      - by apply list_lookup_middle.
      - rewrite length_app. simpl. lia. }
    rewrite (dtor_result _ _ _ _ Hcur Hs2) in Hrun. simpl in Hrun.
    assert (Hpre' : Scopes s.1 `prefix_of` Scopes s2.1).
    { etrans; [|exact Hpre]. by apply prefix_app_r. }
    destruct r2.
    + inversion Hrun; subst. by simpl.
    + destruct (RunBlock cfg rest _) as [e s3|w3 s3 r3] eqn:Hr; [done|].
      inversion Hrun; subst.
      apply IHr in Hr as [-> Hp3]. simpl in *. split; [done|]. by etrans.
Qed.

(** C8: on a builder that accepts declarations, constructing the scope
    guard makes a new scope current whose parent is the scope that was
    current, and destructing the guard makes that scope current again;
    and every block of client code that returns, by reaching its end or
    by [return] from inside any number of nested scopes, leaves the
    current scope of the builder as it found it. *)
Theorem scope_push_pop (cfg : RDGConfig) :
  (∀ s n, DO_CHECK cfg && bHasExecuted s.2 = false →
     ∃ s1 s2,
       FStackRDGEventScopeRef_ctor cfg n s = Done [] s1 tt
       ∧ CurrentScope s1.2 = Some (length (Scopes s.1))
       ∧ Scopes s1.1 !! length (Scopes s.1)
         = Some {| ParentScope := CurrentScope s.2; ScopeName := n |}
       ∧ FStackRDGEventScopeRef_dtor cfg s1 = Done [] s2 tt
       ∧ CurrentScope s2.2 = CurrentScope s.2)
  ∧ (∀ blk s w s' r, RunBlock cfg blk s = Done w s' r →
       CurrentScope s'.2 = CurrentScope s.2).
Proof.
  split.
  - intros s n Hx. eexists. eexists.
    split; [by apply ctor_result|]. simpl.
    split; [done|].
    assert (Hl : (Scopes s.1
                  ++ [{| ParentScope := CurrentScope s.2; ScopeName := n |}])
                 !! length (Scopes s.1)
                 = Some {| ParentScope := CurrentScope s.2; ScopeName := n |})
      by apply list_lookup_middle, eq_refl.
    split; [exact Hl|].
    split; [by eapply dtor_result|done].
  - intros blk s w s' r Hrun. by apply RunBlock_balanced in Hrun as [? _].
Qed.

Lemma scope_push_pop_witness :
  (∃ s1 s2,
     FStackRDGEventScopeRef_ctor Examples.cfg_deferred "Outer" Examples.fresh
     = Done [] s1 tt
     ∧ CurrentScope s1.2 = Some 0%nat
     ∧ Scopes s1.1 !! 0%nat = Some {| ParentScope := None; ScopeName := "Outer" |}
     ∧ FStackRDGEventScopeRef_dtor Examples.cfg_deferred s1 = Done [] s2 tt
     ∧ CurrentScope s2.2 = None)
  ∧ (∃ s', RunBlock Examples.cfg_deferred nested_block Examples.fresh
           = Done [] s' true
           ∧ length (Scopes s'.1) = 2%nat
           ∧ length (Passes s'.2) = 1%nat
           ∧ CurrentScope s'.2 = None).
Proof.
  destruct (scope_push_pop Examples.cfg_deferred) as [Hpush Hblk].
  split.
  - exact (Hpush Examples.fresh "Outer" eq_refl).
  - eexists. split; [vm_compute; reflexivity|].
    split; [reflexivity|]. split; [reflexivity|].
    eapply (Hblk nested_block Examples.fresh). vm_compute. reflexivity.
Defined.

(** ** What [Execute] computes *)







(** ** The order of execution *)










#[local] Instance SameCommands_preorder : PreOrder SameCommands.
Proof.
  split.
  - by intros s.
  - intros s1 s2 s3 [] []. split; congruence.
Qed.




Lemma RunCalls_Calls cfg cs : ∀ s w s',
  RunCalls cfg cs s = Done w s' tt → Calls cfg cs s s'.
Proof.
  induction cs as [|c cs IH]; intros s w s' Hr.
  - inversion Hr. constructor.
  - unfold RunCalls in Hr. simpl in Hr. unfold mbind, M_bind in Hr.
    destruct (RunCall cfg c s) as [|w1 s1 []] eqn:Hc; [done|].
    destruct (mapM_ (RunCall cfg) cs s1) as [|w2 s2 []] eqn:Hcs; [done|].
    inversion Hr; subst. econstructor; [exact Hc|]. by eapply IH.
Qed.



(** ** Compute passes with render targets *)

#[local] Instance SamePasses_preorder : PreOrder SamePasses.
Proof.
  split.
  - by intros s.
  - intros s1 s2 s3 H1 H2. unfold SamePasses in *. congruence.
Qed.





(** ** Deferred extraction *)

#[local] Instance SameSlots_preorder : PreOrder SameSlots.
Proof.
  split.
  - by intros s.
  - intros s1 s2 s3 H1 H2. unfold SameSlots in *. congruence.
Qed.






(** ** External textures *)

#[local] Instance KeepsExternal_preorder h rt : PreOrder (KeepsExternal h rt).
Proof.
  split.
  - intros s H. exact H.
  - intros s1 s2 s3 H1 H2 H. by apply H2, H1.
Qed.

Lemma ExternalBound_lt h rt s : ExternalBound h rt s → (h < length (Textures s.1))%nat.
Proof. intros [(t & Ht & _) _]. by eapply lookup_lt_Some. Qed.

Lemma AllocateIfNeeded_external k h rt s :
  KeepsExternal h rt s (AllocateIfNeeded k s).
Proof.
  intros [(t & Ht & Hst & Hb) Ha]. destruct s as [w g], k as [h'|h']; simpl in *.
  - unfold AllocateRHITextureIfNeeded; simpl.
    destruct (Textures w !! h') as [t'|] eqn:Ht'; [|by split; [exists t|]].
    destruct (PooledRenderTarget t') eqn:Hb'; [by split; [exists t|]|].
    destruct (acquire _ _) as [rt' pool].
    assert (h' ≠ h) by (intros ->; congruence).
    split; simpl.
    + exists t. by rewrite list_lookup_insert_ne.
    + by rewrite lookup_insert_ne.
  - unfold AllocateRHIBufferIfNeeded; simpl.
    destruct (Buffers w !! h') as [b|]; [|by split; [exists t|]].
    destruct (PooledBuffer b); [by split; [exists t|]|].
    destruct (acquire _ _) as [pb pool].
    by split; [exists t|].
Qed.

Lemma ReleaseIfPossible_external k h rt s :
  KeepsExternal h rt s (ReleaseIfPossible k s).
Proof.
  intros [(t & Ht & Hst & Hb) Ha]. destruct s as [w g], k as [h'|h']; simpl in *.
  - unfold ReleaseRHITextureIfPossible; simpl.
    destruct (Textures w !! h') as [t'|] eqn:Ht'; [|by split; [exists t|]].
    destruct (TexState t') eqn:Hst', (PooledRenderTarget t') eqn:Hb';
      try (by split; [exists t|]).
    assert (h' ≠ h) by (intros ->; congruence).
    split; simpl.
    + exists t. by rewrite list_lookup_insert_ne.
    + by rewrite lookup_delete_ne.
  - unfold ReleaseRHIBufferIfPossible; simpl.
    destruct (Buffers w !! h') as [b|]; [|by split; [exists t|]].
    destruct (BufState b), (PooledBuffer b); by split; [exists t|].
Qed.

Lemma foldl_Keeps {A} (R : State → State → Prop) `{!PreOrder R}
    (f : A → State → State) (l : list A) :
  (∀ a s, R s (f a s)) → ∀ s, R s (foldl (λ s a, f a s) s l).
Proof.
  intros Hf. induction l as [|a l IH]; intros s; simpl; [done|].
  etrans; [apply Hf|apply IH].
Qed.

Lemma ExecutePass_external P trs rels h rt s :
  KeepsExternal h rt s (ExecutePass P trs rels s).
Proof.
  unfold ExecutePass, ReleaseUnecessaryResources,
    AllocateAndTransitionPassResources.
  etrans; [|apply (foldl_Keeps _ ReleaseIfPossible);
            intros; apply ReleaseIfPossible_external].
  etrans; [apply (foldl_Keeps _ AllocateIfNeeded);
           intros; apply AllocateIfNeeded_external|].
  intros Hb. exact Hb.
Qed.


(** What [RegisterExternalTexture] computes for a texture that is there. *)
Lemma RegisterExternalTexture_result cfg rt n s :
  RegisterExternalTexture cfg (Some rt) n s
  = Done []
      (set_Textures
         (Textures s.1
          ++ [{| TexName := n; TexDesc := PooledDesc rt; TexState := Declared;
                 PooledRenderTarget := Some rt |}]) s.1,
       let g := set_AllocatedTextures
                  (<[length (Textures s.1) := rt]> (AllocatedTextures s.2)) s.2 in
       if DO_CHECK cfg
       then set_Resources (Resources g ++ [RefTexture (length (Textures s.1))]) g
       else g)
      (length (Textures s.1)).
Proof.
  destruct s as [w g]. unfold RegisterExternalTexture. run.
  rewrite andb_false_r. simpl.
  assert (Ha : alter (set_TexBinding Declared (Some rt)) (length (Textures w))
                 (Textures w
                  ++ [{| TexName := n; TexDesc := PooledDesc rt;
                         TexState := Declared; PooledRenderTarget := None |}])
               = Textures w
                 ++ [{| TexName := n; TexDesc := PooledDesc rt;
                        TexState := Declared; PooledRenderTarget := Some rt |}]).
  { rewrite alter_app_r_alt by lia. by rewrite Nat.sub_diag. }
  rewrite Ha. by destruct (DO_CHECK cfg).
Qed.

Ltac external_done :=
  let t := fresh "t" in
  intros [(t & ? & ? & ?) ?]; simpl in *;
  split;
    [exists t; simpl;
     rewrite ?lookup_app_l by (by eapply lookup_lt_Some); done
    | simpl; done].

Lemma RunCall_external cfg c h rt : Keeps (KeepsExternal h rt) (RunCall cfg c).
Proof.
  destruct c as [[ert|] n| | | | | | | | |].
  - intros s. simpl. unfold mbind, M_bind.
    rewrite RegisterExternalTexture_result. simpl.
    intros Hb. pose proof (ExternalBound_lt _ _ _ Hb) as Hlt.
    destruct Hb as [(t & Ht & Hst & Hb) Ha].
    split.
    + exists t. simpl. by rewrite lookup_app_l.
    + destruct (DO_CHECK cfg); simpl; rewrite lookup_insert_ne; try done; lia.
  - keeps; external_done.
  - keeps; external_done.
  - keeps; external_done.
  - keeps; external_done.
  - keeps; external_done.
  - keeps; external_done.
  - keeps; external_done.
  - keeps; try external_done. apply ExecutePass_external.
  - keeps; external_done.
  - keeps; try external_done.
    + apply (foldl_Keeps _ ExecutePlan). intros; apply ExecutePass_external.
    + destruct (bTransitionToRead _), (_ ≫= _); external_done.
Qed.

Lemma Calls_external cfg cs h rt s s' :
  Calls cfg cs s s' → ExternalBound h rt s → ExternalBound h rt s'.
Proof.
  induction 1 as [|c cs s w s1 s2 Hr _ IH]; intros Hb; [done|].
  apply IH. pose proof (RunCall_external cfg c h rt s) as Hk.
  rewrite Hr in Hk. by apply Hk.
Qed.

Lemma RegisterExternalTexture_bound cfg rt n s :
  ExternalBound (length (Textures s.1)) rt
    (StateOf (RegisterExternalTexture cfg (Some rt) n s)).
Proof.
  rewrite RegisterExternalTexture_result. simpl. split.
  - eexists. simpl. split; [by apply list_lookup_middle|done].
  - destruct (DO_CHECK cfg); simpl; by rewrite lookup_insert_eq.
Qed.

(** C9: [RegisterExternalTexture] returns the handle of a new texture
    that is bound to the physical resource of the caller at once, and
    [AllocatedTextures] holds a counted reference to that resource under
    the handle; whatever calls the builder receives afterwards, [Execute]
    among them, the texture stays bound to that resource and the builder
    keeps its reference. *)
Theorem external_texture_retained (cfg : RDGConfig)
    (rt : IPooledRenderTarget) (n : string) (s : State) :
  ∃ s1,
    RegisterExternalTexture cfg (Some rt) n s
    = Done [] s1 (length (Textures s.1))
    ∧ BoundTo (Textures s1.1) (length (Textures s.1)) = Some rt
    ∧ AllocatedTextures s1.2 !! length (Textures s.1) = Some rt
    ∧ ∀ cs s2, Calls cfg cs s1 s2 →
        BoundTo (Textures s2.1) (length (Textures s.1)) = Some rt
        ∧ AllocatedTextures s2.2 !! length (Textures s.1) = Some rt.
Proof.
  pose proof (RegisterExternalTexture_bound cfg rt n s) as Hb.
  rewrite RegisterExternalTexture_result in *. simpl in Hb.
  eexists. split; [reflexivity|].
  assert (Hx : ∀ s', ExternalBound (length (Textures s.1)) rt s' →
            BoundTo (Textures s'.1) (length (Textures s.1)) = Some rt
            ∧ AllocatedTextures s'.2 !! length (Textures s.1) = Some rt).
  { intros s' [(t & Ht & _ & Hp) Ha]. unfold BoundTo. by rewrite Ht. }
  destruct (Hx _ Hb) as [H1 H2].
  split; [exact H1|]. split; [exact H2|].
  intros cs s2 Hcs. apply Hx. by eapply Calls_external.
Qed.

Lemma external_texture_retained_witness :
  BoundTo
    (Textures
       (StateOf (RunCalls Examples.cfg_deferred (extraction_run ++ [CallExecute])
                   Examples.fresh)).1) 0
  = Some Examples.external_rt
  ∧ AllocatedTextures
      (StateOf (RunCalls Examples.cfg_deferred (extraction_run ++ [CallExecute])
                  Examples.fresh)).2 !! 0%nat
    = Some Examples.external_rt.
Proof.
  destruct (external_texture_retained Examples.cfg_deferred Examples.external_rt
              "External" Examples.fresh) as (s1 & Hr & _ & _ & Hk).
  apply (Hk (tail extraction_run ++ [CallExecute])).
  rewrite RegisterExternalTexture_result in Hr. inversion Hr; subst.
  eapply RunCalls_Calls. vm_compute. reflexivity.
Defined.

(** ** The round trip of an external texture *)





Lemma QueueTextureExtraction_Done_inv cfg t o b s w s' :
  QueueTextureExtraction cfg t o b s = Done w s' tt →
  s' = (s.1,
        set_DeferredInternalTextureQueries
          (DeferredInternalTextureQueries s.2
           ++ [{| QueryTexture := t; OutTexturePtr := o;
                  bTransitionToRead := b |}]) s.2).
Proof.
  destruct s as [w0 g]. unfold QueueTextureExtraction. run.
  destruct (DO_CHECK cfg); simpl.
  - destruct t, o; simpl; try done.
    destruct (bHasExecuted g); simpl; [done|]. by inversion 1.
  - by inversion 1.
Qed.

#[local] Instance QueriesGrow_preorder : PreOrder QueriesGrow.
Proof.
  split.
  - intros s. unfold QueriesGrow. reflexivity.
  - intros s1 s2 s3 H1 H2. unfold QueriesGrow in *. by etrans.
Qed.





(** * More of the header *)

(** ** What a plain declaration does *)

Lemma RunCall_Declares cfg c s w s' :
  IsPlainDeclaration c = true →
  RunCall cfg c s = Done w s' tt → Declares cfg s s'.
Proof.
  intros Hc Hr. destruct s as [w0 g].
  destruct c as [[rt|] n|d n|d n|d|d|d|d| |t o b|]; try done; simpl in Hr.
  - unfold mbind, M_bind in Hr. rewrite RegisterExternalTexture_result in Hr.
    inversion Hr; subst. apply (Declares_external cfg (w0, g)).
  - unfold RegisterExternalTexture in Hr. run.
    by destruct (DO_CHECK cfg && _).
  - unfold CreateTexture in Hr. run.
    destruct (DO_CHECK cfg) eqn:Hd; simpl in Hr;
      [destruct (bHasExecuted g); simpl in Hr|];
      inversion Hr; subst;
      pose proof (Declares_texture cfg (w0, g) d n) as H;
      unfold AddResource in H; by rewrite Hd in H.
  - unfold CreateBuffer in Hr. run.
    destruct (DO_CHECK cfg) eqn:Hd; simpl in Hr;
      [destruct (bHasExecuted g); simpl in Hr|];
      inversion Hr; subst;
      pose proof (Declares_buffer cfg (w0, g) d n) as H;
      unfold AddResource in H; by rewrite Hd in H.
  - unfold CreateSRV_Texture in Hr.
    destruct (SRVTexture d) as [h|] eqn:Hh; [|done]. run.
    destruct (Textures w0 !! h) as [t|] eqn:Ht; [|done].
    assert (Hv : ViewOf (w0, g).1 (FRDGTextureSRV (TexName t) d))
      by (by exists h, t).
    pose proof (Declares_view cfg (w0, g) _ Hv) as H. unfold AddResource in H.
    destruct (DO_CHECK cfg) eqn:Hd; simpl in Hr;
      [destruct (bHasExecuted g); simpl in Hr; case_bool_decide; simpl in Hr|];
      by inversion Hr; subst.
  - unfold CreateSRV_Buffer in Hr.
    destruct (SRVBuffer d) as [h|] eqn:Hh; [|done]. run.
    destruct (Buffers w0 !! h) as [b|] eqn:Hb; [|done].
    assert (Hv : ViewOf (w0, g).1 (FRDGBufferSRV (BufName b) d))
      by (by exists h, b).
    pose proof (Declares_view cfg (w0, g) _ Hv) as H. unfold AddResource in H.
    destruct (DO_CHECK cfg) eqn:Hd; simpl in Hr;
      [destruct (bHasExecuted g); simpl in Hr|];
      by inversion Hr; subst.
  - unfold CreateUAV_Texture in Hr.
    destruct (UAVTexture d) as [h|] eqn:Hh; [|done]. run.
    destruct (Textures w0 !! h) as [t|] eqn:Ht; [|done].
    assert (Hv : ViewOf (w0, g).1 (FRDGTextureUAV (TexName t) d))
      by (by exists h, t).
    pose proof (Declares_view cfg (w0, g) _ Hv) as H. unfold AddResource in H.
    destruct (DO_CHECK cfg) eqn:Hd; simpl in Hr;
      [destruct (bHasExecuted g); simpl in Hr; case_bool_decide; simpl in Hr|];
      by inversion Hr; subst.
  - unfold CreateUAV_Buffer in Hr.
    destruct (UAVBuffer d) as [h|] eqn:Hh; [|done]. run.
    destruct (Buffers w0 !! h) as [b|] eqn:Hb; [|done].
    assert (Hv : ViewOf (w0, g).1 (FRDGBufferUAV (BufName b) d))
      by (by exists h, b).
    pose proof (Declares_view cfg (w0, g) _ Hv) as H. unfold AddResource in H.
    destruct (DO_CHECK cfg) eqn:Hd; simpl in Hr;
      [destruct (bHasExecuted g); simpl in Hr|];
      by inversion Hr; subst.
  - pose proof Hr as Hr'. apply QueueTextureExtraction_Done_inv in Hr' as ->.
    apply (Declares_query cfg (w0, g)). simpl. intros Hd.
    unfold QueueTextureExtraction in Hr. run. rewrite Hd in Hr. simpl in Hr.
    destruct t, o; simpl in Hr; done.
Qed.

(** A property that every plain declaration keeps holds at the end of a
    run of plain declarations. *)
Lemma Calls_Declares_ind cfg (I : State → Prop) :
  (∀ s s', Declares cfg s s' → I s → I s') →
  ∀ cs s s', Calls cfg cs s s' →
    Forall (λ c, IsPlainDeclaration c = true) cs → I s → I s'.
Proof.
  intros Hstep cs s s' Hcs. induction Hcs as [|c cs s w s1 s2 Hr _ IH];
    intros Hp Hi; [done|].
  inversion Hp as [|? ? Hc Hp']; subst.
  apply IH; [done|]. eapply Hstep; [|exact Hi]. by eapply RunCall_Declares.
Qed.

Lemma AddResource_fields cfg r g :
  Passes (AddResource cfg r g) = Passes g
  ∧ AllocatedTextures (AddResource cfg r g) = AllocatedTextures g
  ∧ AllocatedBuffers (AddResource cfg r g) = AllocatedBuffers g
  ∧ DeferredInternalTextureQueries (AddResource cfg r g)
    = DeferredInternalTextureQueries g
  ∧ CurrentScope (AddResource cfg r g) = CurrentScope g
  ∧ bHasExecuted (AddResource cfg r g) = bHasExecuted g
  ∧ Resources (AddResource cfg r g)
    = if DO_CHECK cfg then Resources g ++ [r] else Resources g.
Proof. unfold AddResource. by destruct (DO_CHECK cfg). Qed.

(** ** Handles stay valid *)

Lemma Declares_ArenasGrow cfg s s' : Declares cfg s s' → ArenasGrow s s'.
Proof.
  intros []; unfold ArenasGrow; simpl;
    repeat split; try reflexivity; by apply prefix_app_r.
Qed.

(** X1: the plain declarations never move, change or remove an object of
    the arenas: after a run of them every texture, buffer and view that
    was there is still there under its handle, as it was, and what the run
    created comes after. *)
Theorem declarations_keep_handles (cfg : RDGConfig) (cs : list BuilderCall)
    (s s' : State) :
  Calls cfg cs s s' →
  Forall (λ c, IsPlainDeclaration c = true) cs →
  ArenasGrow s s'
  ∧ (∀ h t, Textures s.1 !! h = Some t → Textures s'.1 !! h = Some t)
  ∧ (∀ h b, Buffers s.1 !! h = Some b → Buffers s'.1 !! h = Some b)
  ∧ (∀ h v, Views s.1 !! h = Some v → Views s'.1 !! h = Some v).
Proof.
  intros Hcs Hp.
  assert (Hg : ArenasGrow s s').
  { apply (Calls_Declares_ind cfg (ArenasGrow s)) with (cs := cs) (s := s);
      try done.
    intros s1 s2 Hd (H1 & H2 & H3).
    destruct (Declares_ArenasGrow _ _ _ Hd) as (G1 & G2 & G3).
    repeat split; by etrans. }
  split; [done|]. destruct Hg as (H1 & H2 & H3).
  repeat split; intros h x Hx; by eapply prefix_lookup_Some.
Qed.

Lemma declarations_keep_handles_witness :
  Textures
    (StateOf (RunCalls Examples.cfg_deferred declaration_run one_texture)).1
  !! 0%nat
  = Some {| TexName := "A"; TexDesc := Examples.desc_rt; TexState := Declared;
            PooledRenderTarget := None |}.
Proof.
  destruct (declarations_keep_handles Examples.cfg_deferred declaration_run
              one_texture
              (StateOf (RunCalls Examples.cfg_deferred declaration_run
                          one_texture))) as (_ & Ht & _).
  - eapply RunCalls_Calls. vm_compute. reflexivity.
  - repeat constructor.
  - apply Ht. reflexivity.
Defined.

(** ** The debug list of resources *)

Lemma TextureRefs_app l1 l2 :
  TextureRefs (l1 ++ l2) = TextureRefs l1 ++ TextureRefs l2.
Proof. apply omap_app. Qed.
Lemma BufferRefs_app l1 l2 :
  BufferRefs (l1 ++ l2) = BufferRefs l1 ++ BufferRefs l2.
Proof. apply omap_app. Qed.
Lemma ViewRefs_app l1 l2 : ViewRefs (l1 ++ l2) = ViewRefs l1 ++ ViewRefs l2.
Proof. apply omap_app. Qed.

Lemma Declares_Tracked cfg s s' :
  DO_CHECK cfg = true → Declares cfg s s' → Tracked s → Tracked s'.
Proof.
  intros Hc Hd (Ht & Hb & Hv). unfold Tracked.
  destruct Hd; simpl;
    rewrite ?(proj2 (proj2 (proj2 (proj2 (proj2 (proj2
               (AddResource_fields _ _ _))))))), ?Hc; simpl;
    rewrite ?TextureRefs_app, ?BufferRefs_app, ?ViewRefs_app, ?length_app,
      ?Ht, ?Hb, ?Hv; simpl;
    rewrite ?app_nil_r, ?Nat.add_1_r, ?seq_S; done.
Qed.

Lemma Declares_Resources_off cfg s s' :
  DO_CHECK cfg = false → Declares cfg s s' → Resources s'.2 = Resources s.2.
Proof.
  intros Hc Hd.
  destruct Hd; simpl;
    rewrite ?(proj2 (proj2 (proj2 (proj2 (proj2 (proj2
               (AddResource_fields _ _ _))))))), ?Hc; done.
Qed.

(** X2: in a debugging build the plain declarations keep [Resources] in
    step with the arenas: when it lists every texture, buffer and view
    once, each kind in the order of creation, it still does after a run
    of them.  Without [DO_CHECK] they leave [Resources] alone. *)
Theorem resources_track_arenas (cfg : RDGConfig) (cs : list BuilderCall)
    (s s' : State) :
  Calls cfg cs s s' →
  Forall (λ c, IsPlainDeclaration c = true) cs →
  (DO_CHECK cfg = true → Tracked s → Tracked s')
  ∧ (DO_CHECK cfg = false → Resources s'.2 = Resources s.2).
Proof.
  intros Hcs Hp. split; intros Hc.
  - apply (Calls_Declares_ind cfg Tracked) with (cs := cs); try done.
    intros. by eapply Declares_Tracked.
  - apply (Calls_Declares_ind cfg (λ x, Resources x.2 = Resources s.2))
      with (cs := cs) (s := s); try done.
    intros s1 s2 Hd <-. by eapply Declares_Resources_off.
Qed.

Lemma resources_track_arenas_witness :
  Tracked (StateOf (RunCalls Examples.cfg_deferred declaration_run
                      Examples.fresh)).
Proof.
  destruct (resources_track_arenas Examples.cfg_deferred declaration_run
              Examples.fresh
              (StateOf (RunCalls Examples.cfg_deferred declaration_run
                          Examples.fresh))) as (Ht & _).
  - eapply RunCalls_Calls. vm_compute. reflexivity.
  - repeat constructor.
  - apply Ht; [reflexivity|]. by repeat split.
Defined.

(** ** Declarations bind and record nothing *)

Lemma BoundTo_snoc texs t h :
  BoundTo (texs ++ [t]) h
  = if decide (h = length texs) then PooledRenderTarget t else BoundTo texs h.
Proof.
  unfold BoundTo. case_decide as Hh.
  - subst. by rewrite list_lookup_middle.
  - destruct (decide (h < length texs)%nat).
    + by rewrite lookup_app_l.
    + rewrite !lookup_ge_None_2; [done|lia|rewrite length_app; simpl; lia].
Qed.

Lemma BufferBoundTo_snoc bufs b h :
  BufferBoundTo (bufs ++ [b]) h
  = if decide (h = length bufs) then PooledBuffer b else BufferBoundTo bufs h.
Proof.
  unfold BufferBoundTo. case_decide as Hh.
  - subst. by rewrite list_lookup_middle.
  - destruct (decide (h < length bufs)%nat).
    + by rewrite lookup_app_l.
    + rewrite !lookup_ge_None_2; [done|lia|rewrite length_app; simpl; lia].
Qed.

Lemma BoundTo_ge texs h : (length texs ≤ h)%nat → BoundTo texs h = None.
Proof. intros Hh. unfold BoundTo. by rewrite lookup_ge_None_2. Qed.

Lemma Declares_NoRHIEffect cfg s s' : Declares cfg s s' → NoRHIEffect s s'.
Proof. by intros []. Qed.

Lemma Declares_BindingsAgree cfg s s' :
  Declares cfg s s' → BindingsAgree s → BindingsAgree s'.
Proof.
  intros Hd Ha h. unfold BindingsAgree in Ha.
  destruct Hd; simpl;
    rewrite ?(proj1 (proj2 (AddResource_fields _ _ _))); simpl;
    rewrite ?BoundTo_snoc; try apply Ha.
  - case_decide as Hh.
    + subst. by rewrite lookup_insert_eq.
    + by rewrite lookup_insert_ne.
  - case_decide as Hh; [|apply Ha].
    subst. rewrite Ha. by apply BoundTo_ge.
Qed.

#[local] Instance BindsNothing_preorder : PreOrder BindsNothing.
Proof.
  split.
  - intros s. by repeat split.
  - intros s1 s2 s3 (A1 & B1 & C1 & D1) (A2 & B2 & C2 & D2).
    repeat split; try congruence; eauto.
Qed.

Ltac binds_nothing_done :=
  unfold BindsNothing; simpl; repeat split; try done;
  intros ? ?; rewrite ?BoundTo_snoc, ?BufferBoundTo_snoc;
  try case_decide; done.

Lemma RunCall_BindsNothing cfg c :
  IsPlainDeclaration c = true → IsRegister c = false →
  Keeps BindsNothing (RunCall cfg c).
Proof.
  intros Hp Hr. destruct c; try done; keeps; binds_nothing_done.
Qed.

(** X3: the plain declarations record no command, take nothing from a
    pool, write no slot; they keep [AllocatedTextures] and the pointers
    of the textures in agreement; and but for [RegisterExternalTexture]
    they bind nothing: the textures and buffers they create are
    descriptors without a physical resource. *)
Theorem declarations_allocate_nothing (cfg : RDGConfig)
    (cs : list BuilderCall) (s s' : State) :
  Calls cfg cs s s' →
  Forall (λ c, IsPlainDeclaration c = true) cs →
  NoRHIEffect s s'
  ∧ (BindingsAgree s → BindingsAgree s')
  ∧ (Forall (λ c, IsRegister c = false) cs → BindsNothing s s').
Proof.
  intros Hcs Hp. split; [|split].
  - apply (Calls_Declares_ind cfg (NoRHIEffect s)) with (cs := cs) (s := s);
      try done.
    intros s1 s2 Hd (H1 & H2 & H3 & H4 & H5).
    destruct (Declares_NoRHIEffect _ _ _ Hd) as (G1 & G2 & G3 & G4 & G5).
    repeat split; congruence.
  - apply (Calls_Declares_ind cfg BindingsAgree) with (cs := cs); try done.
    intros. by eapply Declares_BindingsAgree.
  - induction Hcs as [|c cs s w s1 s2 Hr _ IH]; intros Hn; [reflexivity|].
    inversion Hp as [|? ? Hc Hp']; inversion Hn as [|? ? Hc' Hn']; subst.
    etrans; [|by apply IH].
    pose proof (RunCall_BindsNothing cfg c Hc Hc' s) as Hk.
    by rewrite Hr in Hk.
Qed.

Lemma declarations_allocate_nothing_witness :
  BindingsAgree
    (StateOf (RunCalls Examples.cfg_deferred declaration_run Examples.fresh))
  ∧ BindsNothing one_texture
      (StateOf (RunCalls Examples.cfg_deferred (tail declaration_run)
                  one_texture)).
Proof.
  split.
  - destruct (declarations_allocate_nothing Examples.cfg_deferred
                declaration_run Examples.fresh
                (StateOf (RunCalls Examples.cfg_deferred declaration_run
                            Examples.fresh))) as (_ & Ha & _).
    + eapply RunCalls_Calls. vm_compute. reflexivity.
    + repeat constructor.
    + apply Ha. intros h. unfold BoundTo. simpl.
      by rewrite lookup_empty.
  - destruct (declarations_allocate_nothing Examples.cfg_deferred
                (tail declaration_run) one_texture
                (StateOf (RunCalls Examples.cfg_deferred (tail declaration_run)
                            one_texture))) as (_ & _ & Hb).
    + eapply RunCalls_Calls. vm_compute. reflexivity.
    + repeat constructor.
    + apply Hb. repeat constructor.
Defined.

(** ** Views *)

Lemma ViewOf_grow w w' v :
  Textures w `prefix_of` Textures w' → Buffers w `prefix_of` Buffers w' →
  ViewOf w v → ViewOf w' v.
Proof.
  intros Ht Hb. destruct v as [n d|n d|n d|n d]; simpl;
    intros (h & x & Hd & Hx & Hn); exists h, x;
    (split; [done|split; [|done]]); by eapply prefix_lookup_Some.
Qed.

Lemma Declares_ViewsValid cfg s s' :
  Declares cfg s s' → ViewsValid s → ViewsValid s'.
Proof.
  intros Hd Hv. destruct (Declares_ArenasGrow _ _ _ Hd) as (Gt & Gb & _).
  assert (Hold : Forall (ViewOf s'.1) (Views s.1)).
  { eapply Forall_impl; [exact Hv|]. intros v. by apply ViewOf_grow. }
  unfold ViewsValid. destruct Hd; simpl in *; try done.
  apply Forall_app. split; [done|]. by constructor.
Qed.

Lemma ViewOf_Resolves w i v :
  Views w !! i = Some v → ViewOf w v → Resolves w i.
Proof.
  intros Hi Hv. unfold Resolves, Underlying. rewrite Hi.
  destruct v as [n d|n d|n d|n d]; simpl in Hv;
    destruct Hv as (h & x & -> & Hx & _); simpl; by eexists.
Qed.

(** X4: after a run of plain declarations every view of the arena is a
    view of a texture or buffer that is in its arena and carries the name
    of that resource, when this held before; so the handle of a view
    always resolves to a resource that exists. *)
Theorem views_reference_resources (cfg : RDGConfig) (cs : list BuilderCall)
    (s s' : State) :
  Calls cfg cs s s' →
  Forall (λ c, IsPlainDeclaration c = true) cs →
  ViewsValid s →
  ViewsValid s' ∧ ∀ i, (i < length (Views s'.1))%nat → Resolves s'.1 i.
Proof.
  intros Hcs Hp Hv.
  assert (Hv' : ViewsValid s').
  { apply (Calls_Declares_ind cfg ViewsValid) with (cs := cs) (s := s);
      try done.
    intros. by eapply Declares_ViewsValid. }
  split; [done|]. intros i Hi.
  destruct (lookup_lt_is_Some_2 _ _ Hi) as [v Hlk].
  eapply ViewOf_Resolves; [exact Hlk|].
  unfold ViewsValid in Hv'. rewrite Forall_lookup in Hv'. by eapply Hv'.
Qed.

Lemma views_reference_resources_witness :
  Resolves
    (StateOf (RunCalls Examples.cfg_deferred declaration_run Examples.fresh)).1
    1.
Proof.
  destruct (views_reference_resources Examples.cfg_deferred declaration_run
              Examples.fresh
              (StateOf (RunCalls Examples.cfg_deferred declaration_run
                          Examples.fresh))) as (_ & Hr).
  - eapply RunCalls_Calls. vm_compute. reflexivity.
  - repeat constructor.
  - constructor.
  - apply Hr. vm_compute. lia.
Defined.

(** ** The queue of extraction requests *)

#[local] Instance SameQueries_preorder : PreOrder SameQueries.
Proof.
  split.
  - by intros s.
  - intros s1 s2 s3 H1 H2. unfold SameQueries in *. congruence.
Qed.

Lemma RunCall_queries cfg c s w s' :
  IsPlainDeclaration c = true →
  RunCall cfg c s = Done w s' tt →
  DeferredInternalTextureQueries s'.2
  = DeferredInternalTextureQueries s.2 ++ QueuedBy [c].
Proof.
  intros Hp Hr.
  destruct c as [rt n|d n|d n|d|d|d|d| |t o b|]; try done;
    try (simpl in Hr; by apply QueueTextureExtraction_Done_inv in Hr as ->);
    match type of Hr with RunCall cfg ?c s = _ =>
      assert (Keeps SameQueries (RunCall cfg c)) as Hk by (keeps; done)
    end;
    specialize (Hk s); rewrite Hr in Hk; unfold SameQueries in Hk;
    rewrite Hk; simpl; by rewrite app_nil_r.
Qed.

Lemma Declares_QueriesValid cfg s s' :
  DO_CHECK cfg = true → Declares cfg s s' → QueriesValid s → QueriesValid s'.
Proof.
  intros Hc Hd Hv. unfold QueriesValid in *.
  destruct Hd; simpl;
    rewrite ?(proj1 (proj2 (proj2 (proj2 (AddResource_fields _ _ _)))));
    simpl; try done.
  apply Forall_app. split; [done|]. constructor; [auto|constructor].
Qed.

(** X5: the requests are queued first in, first out: after a run of plain
    declarations the queue is the queue of before followed by the
    requests of the [QueueTextureExtraction] calls of the run, in the
    order of the calls, none dropped and none merged; and in a debugging
    build no request with a null texture or a null slot is ever queued. *)
Theorem extraction_requests_fifo (cfg : RDGConfig) (cs : list BuilderCall)
    (s s' : State) :
  Calls cfg cs s s' →
  Forall (λ c, IsPlainDeclaration c = true) cs →
  DeferredInternalTextureQueries s'.2
  = DeferredInternalTextureQueries s.2 ++ QueuedBy cs
  ∧ (DO_CHECK cfg = true → QueriesValid s → QueriesValid s').
Proof.
  intros Hcs Hp. split.
  - induction Hcs as [|c cs s w s1 s2 Hr _ IH].
    + by rewrite app_nil_r.
    + inversion Hp as [|? ? Hc Hp']; subst.
      rewrite IH by done. erewrite RunCall_queries by done.
      rewrite <- (assoc_L (++)). f_equal.
      unfold QueuedBy. by rewrite <- omap_app.
  - intros Hc.
    apply (Calls_Declares_ind cfg QueriesValid) with (cs := cs); try done.
    intros. by eapply Declares_QueriesValid.
Qed.

Lemma extraction_requests_fifo_witness :
  DeferredInternalTextureQueries
    (StateOf (RunCalls Examples.cfg_deferred declaration_run Examples.fresh)).2
  = [{| QueryTexture := Some 0%nat; OutTexturePtr := Some 100%nat;
        bTransitionToRead := true |};
     {| QueryTexture := Some 1%nat; OutTexturePtr := Some 101%nat;
        bTransitionToRead := false |}]
  ∧ QueriesValid
      (StateOf (RunCalls Examples.cfg_deferred declaration_run Examples.fresh)).
Proof.
  destruct (extraction_requests_fifo Examples.cfg_deferred declaration_run
              Examples.fresh
              (StateOf (RunCalls Examples.cfg_deferred declaration_run
                          Examples.fresh))) as (Hq & Hv).
  - eapply RunCalls_Calls. vm_compute. reflexivity.
  - repeat constructor.
  - split; [exact Hq|]. apply Hv; [reflexivity|constructor].
Defined.

(** ** The scopes form a stack *)

Lemma ScopeChain_stable scopes extra :
  (∀ i sc p, scopes !! i = Some sc → ParentScope sc = Some p → (p < i)%nat) →
  ∀ fuel fuel' c,
    (∀ i, c = Some i → (i < fuel ∧ i < fuel' ∧ i < length scopes)%nat) →
    ScopeChain fuel (scopes ++ extra) c = ScopeChain fuel' scopes c.
Proof.
  intros Hp fuel. induction fuel as [|fuel IH]; intros fuel' c Hc.
  - destruct c as [i|]; [destruct (Hc i eq_refl); lia|]. by destruct fuel'.
  - destruct c as [i|]; [|by destruct fuel'].
    destruct (Hc i eq_refl) as (H1 & H2 & H3).
    destruct fuel' as [|fuel']; [lia|]. simpl.
    rewrite lookup_app_l by done.
    destruct (scopes !! i) as [sc|] eqn:Hsc; [|done].
    f_equal. apply IH. intros p Hpar.
    pose proof (Hp i sc p Hsc Hpar). lia.
Qed.

Lemma ScopeChain_fuel scopes fuel fuel' c :
  (∀ i sc p, scopes !! i = Some sc → ParentScope sc = Some p → (p < i)%nat) →
  (∀ i, c = Some i → (i < fuel ∧ i < fuel' ∧ i < length scopes)%nat) →
  ScopeChain fuel scopes c = ScopeChain fuel' scopes c.
Proof.
  intros Hp Hc.
  rewrite <- (ScopeChain_stable scopes [] Hp fuel fuel' c Hc).
  by rewrite app_nil_r.
Qed.

Lemma ctor_WellScoped cfg n s :
  Building cfg s → WellScoped s →
  WellScoped (StateOf (FStackRDGEventScopeRef_ctor cfg n s)).
Proof.
  intros Hx [Hp Hc]. rewrite ctor_result by done. split; simpl.
  - intros i sc p Hi Hpar.
    destruct (decide (i < length (Scopes s.1))%nat) as [Hlt|Hge].
    + rewrite lookup_app_l in Hi by done. by eapply Hp.
    + rewrite lookup_app_r in Hi by lia.
      destruct (i - length (Scopes s.1))%nat as [|k] eqn:Hk; [|done].
      simpl in Hi. inversion Hi; subst. simpl in Hpar.
      pose proof (Hc p Hpar). lia.
  - intros c Hcur. inversion Hcur; subst. rewrite length_app. simpl. lia.
Qed.

Lemma SameScope_WellScoped s s' : SameScope s s' → WellScoped s → WellScoped s'.
Proof. intros [Hs Hc] [Hp Hcur]. split; rewrite ?Hs, ?Hc; done. Qed.

Lemma RunBlock_WellScoped cfg blk :
  ∀ s w s' r, RunBlock cfg blk s = Done w s' r → WellScoped s → WellScoped s'.
Proof.
  induction blk as [| |c rest IH|n body IHb rest IHr]; intros s w s' r Hrun Hw;
    simpl in Hrun.
  - by inversion Hrun; subst.
  - by inversion Hrun; subst.
  - unfold mbind, M_bind in Hrun.
    pose proof (RunCall_SameScope cfg c s) as Hc.
    destruct (RunCall cfg c s) as [e s1|w1 s1 []]; [done|].
    destruct (RunBlock cfg rest s1) as [e s2|w2 s2 r2] eqn:Hr; [done|].
    inversion Hrun; subst. eapply IH; [exact Hr|].
    by eapply SameScope_WellScoped.
  - unfold mbind, M_bind in Hrun.
    destruct (DO_CHECK cfg && bHasExecuted s.2) eqn:Hx.
    { by rewrite (ctor_halts _ _ _ Hx) in Hrun. }
    pose proof (ctor_WellScoped cfg n s Hx Hw) as Hw1.
    rewrite (ctor_result _ _ _ Hx) in Hrun, Hw1. simpl in Hw1.
    match type of Hrun with context [RunBlock cfg body ?s1] =>
      set (s1' := s1) in *; destruct (RunBlock cfg body s1') as [e s2|w2 s2 r2]
        eqn:Hb; [done|]
    end.
    pose proof (IHb _ _ _ _ Hb Hw1) as Hw2.
    apply RunBlock_balanced in Hb as [Hcur Hpre]. subst s1'.
    simpl in Hcur, Hpre.
    assert (Hs2 : Scopes s2.1 !! length (Scopes s.1)
                  = Some {| ParentScope := CurrentScope s.2; ScopeName := n |}).
    { destruct Hpre as [k ->]. rewrite lookup_app_l.
      - by apply list_lookup_middle.
      - rewrite length_app. simpl. lia. }
    rewrite (dtor_result _ _ _ _ Hcur Hs2) in Hrun. simpl in Hrun.
    assert (Hw3 : WellScoped (s2.1, set_CurrentScope (CurrentScope s.2) s2.2)).
    { destruct Hw2 as [Hp2 _], Hw as [_ Hc]. split; [exact Hp2|]. simpl.
      intros c Hcs. pose proof (Hc c Hcs).
      apply prefix_length in Hpre. rewrite length_app in Hpre. simpl in Hpre.
      lia. }
    destruct r2.
    + by inversion Hrun; subst.
    + destruct (RunBlock cfg rest _) as [e s3|w3 s3 r3] eqn:Hr; [done|].
      inversion Hrun; subst. by eapply IHr.
Qed.

Lemma ScopePath_prefix s s' :
  WellScoped s → CurrentScope s'.2 = CurrentScope s.2 →
  Scopes s.1 `prefix_of` Scopes s'.1 →
  ScopePath s' = ScopePath s.
Proof.
  intros [Hp Hc] Hcur [extra Hs]. unfold ScopePath. rewrite Hcur, Hs.
  apply ScopeChain_stable; [done|].
  intros i Hi. pose proof (Hc i Hi). rewrite length_app. lia.
Qed.

(** X6: the scope guard keeps the scopes of the builder a stack.  When
    every scope has an older scope as parent and the current scope is in
    the arena, constructing the guard puts the new name on top of the
    path of enclosing scopes and destructing it takes the top name off;
    on a builder that is in no scope the destructor halts and changes
    nothing. *)
Theorem scope_path_is_a_stack (cfg : RDGConfig) (s : State) :
  WellScoped s →
  (∀ n, Building cfg s →
     ScopePath (StateOf (FStackRDGEventScopeRef_ctor cfg n s))
     = n :: ScopePath s
     ∧ WellScoped (StateOf (FStackRDGEventScopeRef_ctor cfg n s)))
  ∧ (is_Some (CurrentScope s.2) →
     ∃ s', FStackRDGEventScopeRef_dtor cfg s = Done [] s' tt
       ∧ ScopePath s' = tail (ScopePath s) ∧ WellScoped s')
  ∧ (CurrentScope s.2 = None →
     FStackRDGEventScopeRef_dtor cfg s = Halted InvalidHandle s).
Proof.
  intros Hw. pose proof Hw as [Hp Hc]. split; [|split].
  - intros n Hx. split; [|by apply ctor_WellScoped].
    rewrite ctor_result by done. unfold ScopePath. simpl.
    rewrite length_app. simpl. rewrite Nat.add_1_r. simpl.
    rewrite list_lookup_middle by done. simpl. f_equal.
    apply ScopeChain_stable; [done|].
    intros i Hi. pose proof (Hc i Hi). lia.
  - intros [c Hcur].
    pose proof (Hc c Hcur) as Hlt.
    destruct (lookup_lt_is_Some_2 _ _ Hlt) as [sc Hsc].
    exists (s.1, set_CurrentScope (ParentScope sc) s.2).
    split; [by eapply dtor_result|].
    assert (Hw' : WellScoped (s.1, set_CurrentScope (ParentScope sc) s.2)).
    { split; [exact Hp|]. simpl. intros p Hpar.
      pose proof (Hp c sc p Hsc Hpar). lia. }
    split; [|done].
    unfold ScopePath. simpl. rewrite Hcur.
    rewrite (ScopeChain_fuel (Scopes s.1) (length (Scopes s.1)) (S c) (Some c));
      [|done|intros i [= <-]; lia].
    cbn [ScopeChain]. rewrite Hsc. cbn [tail].
    apply ScopeChain_fuel; [done|].
    intros p Hpar. pose proof (Hp c sc p Hsc Hpar). lia.
  - intros Hcur. destruct s as [w g]. simpl in Hcur.
    unfold FStackRDGEventScopeRef_dtor. run. rewrite Hcur. simpl.
    by destruct (DO_CHECK cfg).
Qed.

Lemma scope_path_is_a_stack_witness :
  ScopePath
    (StateOf (FStackRDGEventScopeRef_ctor Examples.cfg_deferred "C"
                in_two_scopes))
  = ["C"; "B"; "A"]
  ∧ (∃ s', FStackRDGEventScopeRef_dtor Examples.cfg_deferred in_two_scopes
           = Done [] s' tt
       ∧ ScopePath s' = ["A"] ∧ WellScoped s')
  ∧ FStackRDGEventScopeRef_dtor Examples.cfg_deferred Examples.fresh
    = Halted InvalidHandle Examples.fresh.
Proof.
  assert (Hw0 : WellScoped Examples.fresh).
  { split; simpl; [intros i sc p Hi; by rewrite lookup_nil in Hi|done]. }
  destruct (scope_path_is_a_stack Examples.cfg_deferred Examples.fresh Hw0)
    as (Hpush0 & _ & Hpop0).
  destruct (Hpush0 "A" eq_refl) as [_ Hw1].
  destruct (scope_path_is_a_stack Examples.cfg_deferred _ Hw1)
    as (Hpush1 & _ & _).
  destruct (Hpush1 "B" eq_refl) as [_ Hw2].
  fold in_two_scopes in Hw2.
  destruct (scope_path_is_a_stack Examples.cfg_deferred in_two_scopes Hw2)
    as (Hpush2 & Hpop2 & _).
  split; [|split].
  - destruct (Hpush2 "C" eq_refl) as [-> _]. reflexivity.
  - destruct Hpop2 as (s' & Hr & Hp & Hw'); [by eexists|].
    exists s'. split; [exact Hr|]. split; [|exact Hw'].
    rewrite Hp. reflexivity.
  - by apply Hpop0.
Defined.

(** X7: a block of client code that returns leaves the scopes as a user
    sees them: every scope still has an older scope as parent, so the
    parent chain of any scope ends at the root, and the path of scopes
    the builder is in is the one of before the block, whatever scopes
    the block opened and whatever calls it made. *)
Theorem block_keeps_scope_path (cfg : RDGConfig) (blk : Block) (s s' : State)
    (w : list Error) (r : bool) :
  WellScoped s →
  RunBlock cfg blk s = Done w s' r →
  WellScoped s' ∧ ScopePath s' = ScopePath s.
Proof.
  intros Hw Hrun. split; [by eapply RunBlock_WellScoped|].
  apply RunBlock_balanced in Hrun as [Hcur Hpre].
  by apply ScopePath_prefix.
Qed.

Lemma block_keeps_scope_path_witness :
  ∃ s', RunBlock Examples.cfg_deferred three_scopes Examples.fresh
        = Done [] s' false
    ∧ length (Scopes s'.1) = 3%nat
    ∧ WellScoped s' ∧ ScopePath s' = [].
Proof.
  eexists. split; [vm_compute; reflexivity|]. split; [reflexivity|].
  eapply (block_keeps_scope_path Examples.cfg_deferred three_scopes
            Examples.fresh).
  - split; simpl; [intros i sc p Hi; by rewrite lookup_nil in Hi|done].
  - vm_compute. reflexivity.
Defined.

(** * The transitions of one resource *)


Lemma AccessAfter_app a b : ∀ st,
  AccessAfter st (a ++ b) = AccessAfter (AccessAfter st a) b.
Proof. induction a as [|[k x] a IH]; intros st; simpl; [done|]. apply IH. Qed.












